(** * Advanced-API DHCP tasks of the vSphere infrastructure reconciler

    A shallow embedding of [pkg/internal/infrastructure/tasks_advanced_dhcp.go]:
    the six tasks (edge-cluster lookup, DHCP profile, DHCP server,
    logical-switch lookup, DHCP port, DHCP IP pool), their [reference],
    [Ensure] and [EnsureDeleted] methods, and [equalCommonTags].

    Go values are modelled as follows.
    - [*string], [*http.Response], [*manager.IPv4DhcpServer] and the other
      pointers that may be nil are [option]s; dereferencing [None] panics.
    - [error] is an inductive type; a nil error is [None : option error].
    - The NSX-T client is a record of functions.  Each one receives the
      history of the calls made so far, so a client may answer the same
      request differently over time.
    - A method runs in a small monad over a store holding the
      [NSXTInfraState] behind the [state] pointer and the trace of remote
      calls; its outcome is a normal return, a panic, or fuel exhaustion. *)

From Stdlib Require Import String Ascii List ZArith Bool Lia Permutation.
From Stdlib Require Import DecimalString.
Import ListNotations.
Open Scope string_scope.
Open Scope Z_scope.

(** ** Strings and decimal numbers *)

(** [%d] of [fmt.Sprintf] / [fmt.Errorf] for a non-negative or negative integer. *)
Definition formatInt (z : Z) : string :=
  NilZero.string_of_int (Z.to_int z).

Fixpoint splitAcc (sep : ascii) (s : string) (cur : string) : list string :=
  match s with
  | EmptyString => [cur]
  | String c rest =>
      if Ascii.eqb c sep
      then cur :: splitAcc sep rest EmptyString
      else splitAcc sep rest (cur ++ String c EmptyString)
  end.

(** [strings.Split(s, sep)] for a one-character separator. *)
Definition split (sep : ascii) (s : string) : list string :=
  splitAcc sep s EmptyString.

Definition isDigit (c : ascii) : bool :=
  let n := N_of_ascii c in (48 <=? n)%N && (n <=? 57)%N.

Fixpoint parseDigits (s : string) (acc : Z) : option Z :=
  match s with
  | EmptyString => Some acc
  | String c rest =>
      if isDigit c
      then parseDigits rest (10 * acc + (Z.of_N (N_of_ascii c) - 48))
      else None
  end.

(** A non-empty string of decimal digits. *)
Definition parseUint (s : string) : option Z :=
  match s with
  | EmptyString => None
  | _ => parseDigits s 0
  end.

(** ** IPv4 addresses and CIDR blocks *)

Definition parseOctet (s : string) : option Z :=
  match parseUint s with
  | Some n => if n <=? 255 then Some n else None
  | None => None
  end.

(** A dotted quad as a 32-bit number. *)
Definition parseIPv4 (s : string) : option Z :=
  match map parseOctet (split "." s) with
  | [Some a; Some b; Some c; Some d] =>
      Some (Z.lor (Z.shiftl a 24) (Z.lor (Z.shiftl b 16) (Z.lor (Z.shiftl c 8) d)))
  | _ => None
  end.

Definition formatIPv4 (ip : Z) : string :=
  formatInt (Z.land (Z.shiftr ip 24) 255) ++ "." ++
  formatInt (Z.land (Z.shiftr ip 16) 255) ++ "." ++
  formatInt (Z.land (Z.shiftr ip 8) 255) ++ "." ++
  formatInt (Z.land ip 255).

(** [a.b.c.d/len] as the pair of the address and the prefix length. *)
Definition parseCIDR (cidr : string) : option (Z * Z) :=
  match split "/" cidr with
  | [addr; len] =>
      match parseIPv4 addr, parseUint len with
      | Some ip, Some n => if n <=? 32 then Some (ip, n) else None
      | _, _ => None
      end
  | _ => None
  end.

(** ** Errors *)

(** Go [error] values.  [Wrapf] is [errors.Wrapf] of github.com/pkg/errors,
    [Errorf] is [fmt.Errorf] with its message already formatted, and
    [TransportError] stands for whatever error value the NSX-T client
    hands back. *)
Inductive error : Type :=
| TransportError (msg : string)
| Errorf (msg : string)
| Wrapf (cause : error) (msg : string)
| ReadingError (cause : error)
| CreatingError (cause : error)
| UpdatingError (cause : error)
| AddressComputationError (msg : string).

(** Modelled from the spec: [readingErr] is a helper of the package whose
    definition is missing from the sources.  The spec lists [ReadingError],
    [CreatingError] and [UpdatingError], "each wraps the transport error
    with an operation tag". *)
Definition readingErr (err : error) : error := ReadingError err.

(** Modelled from the spec: [creatingErr], missing from the sources like
    [readingErr], wraps the transport error with the creating tag. *)
Definition creatingErr (err : error) : error := CreatingError err.

(** Modelled from the spec: [updatingErr], missing from the sources like
    [readingErr], wraps the transport error with the updating tag. *)
Definition updatingErr (err : error) : error := UpdatingError err.

(** ** Address derivation *)

(** Modelled from the spec: the address arithmetic behind [cidrHost] and
    [cidrHostAndPrefix], two helpers of the package whose definitions are
    missing from the sources.  The spec derives, from the worker subnet
    CIDR, "gateway = host offset 1; DHCP server address = host offset 2;
    pool start = host offset 10; pool end = the last usable host (highest
    assignable address, i.e. offset -1 from the broadcast address)", and
    "fails with an address-computation error if the subnet cannot hold these
    offsets".  A non-negative [hostNum] counts from the network address, a
    negative one from the broadcast address; the result is the address and
    the prefix length of the subnet. *)
Definition cidrHostIP (cidr : string) (hostNum : Z) : error + (Z * Z) :=
  match parseCIDR cidr with
  | None => inl (AddressComputationError ("invalid CIDR address: " ++ cidr))
  | Some (ip, len) =>
      let size := Z.shiftl 1 (32 - len) in
      let network := Z.land ip (Z.lnot (size - 1)) in
      let broadcast := Z.lor network (size - 1) in
      if Z.abs hostNum <? size
      then inr (if 0 <=? hostNum then network + hostNum else broadcast + hostNum, len)
      else inl (AddressComputationError
                  ("prefix of " ++ cidr ++ " does not accommodate a host numbered "
                   ++ formatInt hostNum))
  end.

(** Modelled from the spec: [cidrHost], missing from the sources, is the
    address at the host offset [hostNum] of the subnet, in dotted-quad
    form. *)
Definition cidrHost (cidr : string) (hostNum : Z) : error + string :=
  match cidrHostIP cidr hostNum with
  | inl err => inl err
  | inr (ip, _) => inr (formatIPv4 ip)
  end.

(** Modelled from the spec: [cidrHostAndPrefix], missing from the sources,
    is the address at the host offset followed by the prefix length of the
    subnet, as the DHCP server address is given to the remote API. *)
Definition cidrHostAndPrefix (cidr : string) (hostNum : Z) : error + string :=
  match cidrHostIP cidr hostNum with
  | inl err => inl err
  | inr (ip, len) => inr (formatIPv4 ip ++ "/" ++ formatInt len)
  end.

(** ** Remote objects

    The structs of [github.com/vmware/go-vmware-nsxt] ([common] and
    [manager]), with the fields the tasks read or write. *)

Module Tag.
Record t := mk { Scope : string; Tag : string }.
End Tag.

Module DhcpProfile.
Record t := mk {
  Id : string;
  DisplayName : string;
  Description : string;
  EdgeClusterId : string;
  Tags : list Tag.t }.
(** The zero value that Go returns next to a failed call. *)
Definition zero : t := mk EmptyString EmptyString EmptyString EmptyString [].
End DhcpProfile.

Module IPv4DhcpServer.
Record t := mk {
  DhcpServerIp : string;
  DnsNameservers : list string;
  GatewayIp : string }.
End IPv4DhcpServer.

Module LogicalDhcpServer.
Record t := mk {
  Id : string;
  Description : string;
  DisplayName : string;
  Tags : list Tag.t;
  DhcpProfileId : string;
  Ipv4DhcpServer : option IPv4DhcpServer.t }.
Definition zero : t := mk EmptyString EmptyString EmptyString [] EmptyString None.
End LogicalDhcpServer.

Module LogicalPortAttachment.
Record t := mk { AttachmentType : string; Id : string }.
End LogicalPortAttachment.

Module LogicalPort.
Record t := mk {
  Id : string;
  DisplayName : string;
  Description : string;
  LogicalSwitchId : string;
  AdminState : string;
  Tags : list Tag.t;
  Attachment : option LogicalPortAttachment.t }.
Definition zero : t := mk EmptyString EmptyString EmptyString EmptyString EmptyString [] None.
End LogicalPort.

Module IpPoolRange.
Record t := mk { Start : string; End_ : string }.
End IpPoolRange.

Module DhcpIpPool.
Record t := mk {
  Id : string;
  DisplayName : string;
  Description : string;
  GatewayIp : string;
  LeaseTime : Z;
  ErrorThreshold : Z;
  WarningThreshold : Z;
  AllocationRanges : list IpPoolRange.t;
  Tags : list Tag.t }.
Definition zero : t := mk EmptyString EmptyString EmptyString EmptyString 0 0 0 [] [].
End DhcpIpPool.

Module EdgeCluster.
Record t := mk { Id : string; DisplayName : string }.
End EdgeCluster.

Module EdgeClusterListResult.
Record t := mk { Results : list EdgeCluster.t }.
End EdgeClusterListResult.

Module LogicalSwitch.
Record t := mk { Id : string; Tags : list Tag.t }.
End LogicalSwitch.

Module LogicalSwitchListResult.
Record t := mk { Results : list LogicalSwitch.t }.
End LogicalSwitchListResult.

(** [*http.Response], as far as the tasks look into it. *)
Record Response := { StatusCode : Z }.

Definition StatusOK : Z := 200.
Definition StatusCreated : Z := 201.
Definition StatusNotFound : Z := 404.

(** ** Spec and State *)

(** [NSXTInfraSpec].  Its declaration is missing from the sources; the
    tasks read the three fields below and call the methods
    [FullClusterName()] and [createCommonTags()].  Both methods take no
    argument and the spec calls the tag generator deterministic, so each is
    carried as the value it returns for this spec. *)
Record NSXTInfraSpec := {
  EdgeClusterName : string;
  WorkersNetwork : string;
  DNSServers : list string;
  FullClusterName : string;
  createCommonTags : list Tag.t }.

(** Modelled from the spec: the declaration of [Reference] is missing from
    the sources.  The spec describes a Reference as an "optional
    remote-object identifier" whose absence means "not yet created or
    intentionally forgotten"; a [*Reference] is an [option Reference]. *)
Record Reference := { ID : string }.

(** Modelled from the spec: [toReference], missing from the sources, turns
    an optional identifier into the optional Reference of the spec; a nil
    identifier gives a nil Reference. *)
Definition toReference (id : option string) : option Reference :=
  match id with
  | Some s => Some {| ID := s |}
  | None => None
  end.

(** The correlation key of the state: the managed segment and its path. *)
Record SegmentReference := { Path : string }.

(** [state.AdvancedDHCP]: one optional identifier per resource. *)
Record AdvancedDHCPState := {
  EdgeClusterID : option string;
  ProfileID : option string;
  ServerID : option string;
  LogicalSwitchID : option string;
  PortID : option string;
  IPPoolID : option string }.

Record NSXTInfraState := {
  SegmentRef : SegmentReference;
  AdvancedDHCP : AdvancedDHCPState }.

(** Assignments to the fields of [state.AdvancedDHCP]. *)
Definition withEdgeClusterID (v : option string) (st : NSXTInfraState) : NSXTInfraState :=
  let d := AdvancedDHCP st in
  {| SegmentRef := SegmentRef st;
     AdvancedDHCP := {| EdgeClusterID := v; ProfileID := ProfileID d;
                        ServerID := ServerID d; LogicalSwitchID := LogicalSwitchID d;
                        PortID := PortID d; IPPoolID := IPPoolID d |} |}.

Definition withProfileID (v : option string) (st : NSXTInfraState) : NSXTInfraState :=
  let d := AdvancedDHCP st in
  {| SegmentRef := SegmentRef st;
     AdvancedDHCP := {| EdgeClusterID := EdgeClusterID d; ProfileID := v;
                        ServerID := ServerID d; LogicalSwitchID := LogicalSwitchID d;
                        PortID := PortID d; IPPoolID := IPPoolID d |} |}.

Definition withServerID (v : option string) (st : NSXTInfraState) : NSXTInfraState :=
  let d := AdvancedDHCP st in
  {| SegmentRef := SegmentRef st;
     AdvancedDHCP := {| EdgeClusterID := EdgeClusterID d; ProfileID := ProfileID d;
                        ServerID := v; LogicalSwitchID := LogicalSwitchID d;
                        PortID := PortID d; IPPoolID := IPPoolID d |} |}.

Definition withLogicalSwitchID (v : option string) (st : NSXTInfraState) : NSXTInfraState :=
  let d := AdvancedDHCP st in
  {| SegmentRef := SegmentRef st;
     AdvancedDHCP := {| EdgeClusterID := EdgeClusterID d; ProfileID := ProfileID d;
                        ServerID := ServerID d; LogicalSwitchID := v;
                        PortID := PortID d; IPPoolID := IPPoolID d |} |}.

Definition withPortID (v : option string) (st : NSXTInfraState) : NSXTInfraState :=
  let d := AdvancedDHCP st in
  {| SegmentRef := SegmentRef st;
     AdvancedDHCP := {| EdgeClusterID := EdgeClusterID d; ProfileID := ProfileID d;
                        ServerID := ServerID d; LogicalSwitchID := LogicalSwitchID d;
                        PortID := v; IPPoolID := IPPoolID d |} |}.

Definition withIPPoolID (v : option string) (st : NSXTInfraState) : NSXTInfraState :=
  let d := AdvancedDHCP st in
  {| SegmentRef := SegmentRef st;
     AdvancedDHCP := {| EdgeClusterID := EdgeClusterID d; ProfileID := ProfileID d;
                        ServerID := ServerID d; LogicalSwitchID := LogicalSwitchID d;
                        PortID := PortID d; IPPoolID := v |} |}.

(** ** The remote API and the trace of calls *)

(** One constructor per client method the tasks call, with its arguments
    (the context argument apart). *)
Inductive Call : Type :=
| CallListEdgeClusters
| CallReadDhcpProfile (id : string)
| CallUpdateDhcpProfile (id : string) (profile : DhcpProfile.t)
| CallCreateDhcpProfile (profile : DhcpProfile.t)
| CallDeleteDhcpProfile (id : string)
| CallReadDhcpServer (id : string)
| CallUpdateDhcpServer (id : string) (server : LogicalDhcpServer.t)
| CallCreateDhcpServer (server : LogicalDhcpServer.t)
| CallDeleteDhcpServer (id : string)
| CallListLogicalSwitches
| CallGetLogicalPort (id : string)
| CallUpdateLogicalPort (id : string) (port : LogicalPort.t)
| CallCreateLogicalPort (port : LogicalPort.t)
| CallDeleteLogicalPort (id : string) (detach : bool)
| CallReadDhcpIpPool (serverID id : string)
| CallUpdateDhcpIpPool (serverID id : string) (pool : DhcpIpPool.t)
| CallCreateDhcpIpPool (serverID : string) (pool : DhcpIpPool.t)
| CallDeleteDhcpIpPool (serverID id : string).

(** A remote call as it happened: the request, the status code of the
    response (if there was a response) and the transport error (if any). *)
Record Event := {
  call : Call;
  status : option Z;
  failure : option error }.

Definition History := list Event.

Definition isRead (c : Call) : bool :=
  match c with
  | CallReadDhcpProfile _ | CallReadDhcpServer _
  | CallGetLogicalPort _ | CallReadDhcpIpPool _ _ => true
  | _ => false
  end.

Definition isCreate (c : Call) : bool :=
  match c with
  | CallCreateDhcpProfile _ | CallCreateDhcpServer _
  | CallCreateLogicalPort _ | CallCreateDhcpIpPool _ _ => true
  | _ => false
  end.

Definition isUpdate (c : Call) : bool :=
  match c with
  | CallUpdateDhcpProfile _ _ | CallUpdateDhcpServer _ _
  | CallUpdateLogicalPort _ _ | CallUpdateDhcpIpPool _ _ _ => true
  | _ => false
  end.

Definition isDelete (c : Call) : bool :=
  match c with
  | CallDeleteDhcpProfile _ | CallDeleteDhcpServer _
  | CallDeleteLogicalPort _ _ | CallDeleteDhcpIpPool _ _ => true
  | _ => false
  end.

(** A write is a call that changes the remote state. *)
Definition isWrite (c : Call) : bool := isCreate c || isUpdate c || isDelete c.

(** The three API groups of the client.  Every method gets the history of
    the calls made before it and answers as the Go method does: the object
    (or the zero value), the response (or nil) and the error (or nil). *)
Record NetworkTransportApiService := {
  ListEdgeClusters :
    History -> EdgeClusterListResult.t * option Response * option error }.

Record ServicesApiService := {
  ReadDhcpProfile :
    History -> string -> DhcpProfile.t * option Response * option error;
  UpdateDhcpProfile :
    History -> string -> DhcpProfile.t -> DhcpProfile.t * option Response * option error;
  CreateDhcpProfile :
    History -> DhcpProfile.t -> DhcpProfile.t * option Response * option error;
  DeleteDhcpProfile :
    History -> string -> option Response * option error;
  ReadDhcpServer :
    History -> string -> LogicalDhcpServer.t * option Response * option error;
  UpdateDhcpServer :
    History -> string -> LogicalDhcpServer.t ->
    LogicalDhcpServer.t * option Response * option error;
  CreateDhcpServer :
    History -> LogicalDhcpServer.t -> LogicalDhcpServer.t * option Response * option error;
  DeleteDhcpServer :
    History -> string -> option Response * option error;
  ReadDhcpIpPool :
    History -> string -> string -> DhcpIpPool.t * option Response * option error;
  UpdateDhcpIpPool :
    History -> string -> string -> DhcpIpPool.t ->
    DhcpIpPool.t * option Response * option error;
  CreateDhcpIpPool :
    History -> string -> DhcpIpPool.t -> DhcpIpPool.t * option Response * option error;
  DeleteDhcpIpPool :
    History -> string -> string -> option Response * option error }.

Record LogicalSwitchingApiService := {
  ListLogicalSwitches :
    History -> LogicalSwitchListResult.t * option Response * option error;
  GetLogicalPort :
    History -> string -> LogicalPort.t * option Response * option error;
  UpdateLogicalPort :
    History -> string -> LogicalPort.t -> LogicalPort.t * option Response * option error;
  CreateLogicalPort :
    History -> LogicalPort.t -> LogicalPort.t * option Response * option error;
  DeleteLogicalPort :
    History -> string -> bool -> option Response * option error }.

Record NSXClient := {
  NetworkTransportApi : NetworkTransportApiService;
  ServicesApi : ServicesApiService;
  LogicalSwitchingApi : LogicalSwitchingApiService }.

Record ensurer := { nsxClient : NSXClient }.

(** ** The monad of a task method

    [state] is the struct behind the [*NSXTInfraState] argument: what a
    method stored there stays stored when it returns an error or panics. *)

Record Store := {
  state : NSXTInfraState;
  trace : History }.

Inductive Outcome (A : Type) : Type :=
| Returned (a : A)
| Panicked
| OutOfFuel.

Arguments Returned {A} a.
Arguments Panicked {A}.
Arguments OutOfFuel {A}.

Definition M (A : Type) : Type := Store -> Outcome A * Store.

Definition ret {A} (a : A) : M A := fun s => (Returned a, s).

Definition bind {A B} (m : M A) (k : A -> M B) : M B :=
  fun s =>
    match m s with
    | (Returned a, s') => k a s'
    | (Panicked, s') => (Panicked, s')
    | (OutOfFuel, s') => (OutOfFuel, s')
    end.

Definition panic {A} : M A := fun s => (Panicked, s).

Definition outOfFuel {A} : M A := fun s => (OutOfFuel, s).

Definition getState : M NSXTInfraState := fun s => (Returned (state s), s).

Definition modifyState (f : NSXTInfraState -> NSXTInfraState) : M unit :=
  fun s => (Returned tt, {| state := f (state s); trace := trace s |}).

(** [*p]: a nil pointer dereference is a run-time panic. *)
Definition deref {A} (p : option A) : M A :=
  match p with
  | Some v => ret v
  | None => panic
  end.

(** A call of a client method that returns [(object, response, error)]:
    the client answers from the history, and the call joins the trace. *)
Definition invoke {A} (c : Call)
    (method : History -> A * option Response * option error)
  : M (A * option Response * option error) :=
  fun s =>
    let '(obj, resp, err) := method (trace s) in
    (Returned (obj, resp, err),
     {| state := state s;
        trace := (trace s ++ [{| call := c;
                                 status := option_map StatusCode resp;
                                 failure := err |}])%list |}).

(** A call of a client method that returns [(response, error)]. *)
Definition invokeDelete (c : Call)
    (method : History -> option Response * option error)
  : M (option Response * option error) :=
  fun s =>
    let '(resp, err) := method (trace s) in
    (Returned (resp, err),
     {| state := state s;
        trace := (trace s ++ [{| call := c;
                                 status := option_map StatusCode resp;
                                 failure := err |}])%list |}).

Declare Scope task_scope.
Delimit Scope task_scope with task.
Notation "x <- m ;; k" := (bind m (fun x => k))
  (at level 61, m at next level, right associativity) : task_scope.
Notation "' pat <- m ;; k" := (bind m (fun x => match x with pat => k end))
  (at level 61, pat pattern, m at next level, right associativity) : task_scope.
Notation "m ;; k" := (bind m (fun _ => k))
  (at level 61, right associativity) : task_scope.
Open Scope task_scope.

(** [resp != nil && resp.StatusCode == http.StatusNotFound] *)
Definition respIsNotFound (resp : option Response) : bool :=
  match resp with
  | Some r => StatusCode r =? StatusNotFound
  | None => false
  end.

Definition strNeq (a b : string) : bool := negb (String.eqb a b).

(** ** Comparison helpers *)

(** [equalCommonTags]: equal lengths, and every tag of [a] is found in [b]. *)
Fixpoint foundIn (ai : Tag.t) (b : list Tag.t) : bool :=
  match b with
  | [] => false
  | bi :: rest =>
      if String.eqb (Tag.Scope ai) (Tag.Scope bi) && String.eqb (Tag.Tag ai) (Tag.Tag bi)
      then true
      else foundIn ai rest
  end.

Fixpoint allFoundIn (a b : list Tag.t) : bool :=
  match a with
  | [] => true
  | ai :: rest => if negb (foundIn ai b) then false else allFoundIn rest b
  end.

Definition equalCommonTags (a b : list Tag.t) : bool :=
  if negb (Nat.eqb (length a) (length b)) then false else allFoundIn a b.

(** Modelled from the spec: [equalOrderedStrings] is a helper of the package
    whose definition is missing from the sources.  The spec has "ordered
    lists such as DNS servers, which are compared positionally". *)
Fixpoint equalOrderedStrings (a b : list string) : bool :=
  match a, b with
  | [], [] => true
  | x :: a', y :: b' => String.eqb x y && equalOrderedStrings a' b'
  | _, _ => false
  end.

(** ** The tasks *)

Section Tasks.

(** The package constant [description], stamped on every created object;
    its declaration is missing from the sources. *)
Variable description : string.

(** *** Edge-cluster lookup *)

Definition advancedLookupEdgeClusterTask_name (spec : NSXTInfraSpec) : option string :=
  Some (EdgeClusterName spec).

Definition advancedLookupEdgeClusterTask_reference (state : NSXTInfraState)
  : option Reference :=
  toReference (EdgeClusterID (AdvancedDHCP state)).

(** The loop over [objList.Results]: the first object with the wanted name. *)
Fixpoint findEdgeCluster (name : string) (results : list EdgeCluster.t)
  : option EdgeCluster.t :=
  match results with
  | [] => None
  | obj :: rest =>
      if String.eqb (EdgeCluster.DisplayName obj) name
      then Some obj
      else findEdgeCluster name rest
  end.

Definition advancedLookupEdgeClusterTask_Ensure (a : ensurer) (spec : NSXTInfraSpec)
  : M (option error) :=
  let name := EdgeClusterName spec in
  '(objList, _, err) <-
     invoke CallListEdgeClusters (ListEdgeClusters (NetworkTransportApi (nsxClient a)));;
  match err with
  | Some e => ret (Some e)
  | None =>
      match findEdgeCluster name (EdgeClusterListResult.Results objList) with
      | Some obj =>
          modifyState (withEdgeClusterID (Some (EdgeCluster.Id obj)));;
          ret None
      | None => ret (Some (Errorf ("not found: " ++ name)))
      end
  end.

(** *** DHCP profile *)

Definition advancedDHCPProfileTask_reference (state : NSXTInfraState)
  : option Reference :=
  toReference (PortID (AdvancedDHCP state)).

Fixpoint advancedDHCPProfileTask_Ensure (fuel : nat) (a : ensurer) (spec : NSXTInfraSpec)
  : M (option error) :=
  match fuel with
  | O => outOfFuel
  | S fuel' =>
    st <- getState;;
    edgeClusterID <- deref (EdgeClusterID (AdvancedDHCP st));;
    let profile :=
      {| DhcpProfile.Id := EmptyString;
         DhcpProfile.DisplayName := FullClusterName spec;
         DhcpProfile.Description := description;
         DhcpProfile.EdgeClusterId := edgeClusterID;
         DhcpProfile.Tags := createCommonTags spec |} in
    match ProfileID (AdvancedDHCP st) with
    | Some profileID =>
        '(oldProfile, resp, err) <-
           invoke (CallReadDhcpProfile profileID)
                  (fun h => ReadDhcpProfile (ServicesApi (nsxClient a)) h profileID);;
        if respIsNotFound resp then
          modifyState (withProfileID None);;
          advancedDHCPProfileTask_Ensure fuel' a spec
        else
          match err with
          | Some e => ret (Some (readingErr e))
          | None =>
              if strNeq (DhcpProfile.DisplayName oldProfile) (DhcpProfile.DisplayName profile)
                 || strNeq (DhcpProfile.EdgeClusterId oldProfile)
                           (DhcpProfile.EdgeClusterId profile)
                 || negb (equalCommonTags (DhcpProfile.Tags oldProfile)
                                          (DhcpProfile.Tags profile))
              then
                '(_, resp, err) <-
                   invoke (CallUpdateDhcpProfile profileID profile)
                          (fun h => UpdateDhcpProfile (ServicesApi (nsxClient a)) h
                                      profileID profile);;
                match err with
                | Some e => ret (Some (updatingErr e))
                | None =>
                    r <- deref resp;;
                    if negb (StatusCode r =? StatusOK)
                    then ret (Some (Errorf ("updating failed with unexpected HTTP status code "
                                            ++ formatInt (StatusCode r))))
                    else ret None
                end
              else ret None
          end
    | None =>
        '(createdProfile, resp, err) <-
           invoke (CallCreateDhcpProfile profile)
                  (fun h => CreateDhcpProfile (ServicesApi (nsxClient a)) h profile);;
        match err with
        | Some e => ret (Some (creatingErr e))
        | None =>
            r <- deref resp;;
            if negb (StatusCode r =? StatusCreated)
            then ret (Some (Errorf ("creating failed with unexpected HTTP status code "
                                    ++ formatInt (StatusCode r))))
            else
              modifyState (withProfileID (Some (DhcpProfile.Id createdProfile)));;
              ret None
        end
    end
  end.

Definition advancedDHCPProfileTask_EnsureDeleted (a : ensurer) (_ : NSXTInfraSpec)
  : M (bool * option error) :=
  st <- getState;;
  match ProfileID (AdvancedDHCP st) with
  | None => ret (false, None)
  | Some profileID =>
      '(resp, err) <-
         invokeDelete (CallDeleteDhcpProfile profileID)
                      (fun h => DeleteDhcpProfile (ServicesApi (nsxClient a)) h profileID);;
      if respIsNotFound resp then
        modifyState (withProfileID None);;
        ret (false, None)
      else
        match err with
        | Some e => ret (false, Some e)
        | None =>
            modifyState (withProfileID None);;
            ret (true, None)
        end
  end.

(** *** DHCP server *)

Definition advancedDHCPServerTask_reference (state : NSXTInfraState)
  : option Reference :=
  toReference (ServerID (AdvancedDHCP state)).

Fixpoint advancedDHCPServerTask_Ensure (fuel : nat) (a : ensurer) (spec : NSXTInfraSpec)
  : M (option error) :=
  match fuel with
  | O => outOfFuel
  | S fuel' =>
    match cidrHostAndPrefix (WorkersNetwork spec) 2 with
    | inl err => ret (Some (Wrapf err "DHCP server IP"))
    | inr dhcpServerIP =>
    match cidrHost (WorkersNetwork spec) 1 with
    | inl err => ret (Some (Wrapf err "gateway IP"))
    | inr gatewayIP =>
    let ipv4DhcpServer :=
      {| IPv4DhcpServer.DhcpServerIp := dhcpServerIP;
         IPv4DhcpServer.DnsNameservers := DNSServers spec;
         IPv4DhcpServer.GatewayIp := gatewayIP |} in
    st <- getState;;
    profileID <- deref (ProfileID (AdvancedDHCP st));;
    let server :=
      {| LogicalDhcpServer.Id := EmptyString;
         LogicalDhcpServer.Description := description;
         LogicalDhcpServer.DisplayName := FullClusterName spec;
         LogicalDhcpServer.Tags := createCommonTags spec;
         LogicalDhcpServer.DhcpProfileId := profileID;
         LogicalDhcpServer.Ipv4DhcpServer := Some ipv4DhcpServer |} in
    match ServerID (AdvancedDHCP st) with
    | Some serverID =>
        '(oldServer, resp, err) <-
           invoke (CallReadDhcpServer serverID)
                  (fun h => ReadDhcpServer (ServicesApi (nsxClient a)) h serverID);;
        if respIsNotFound resp then
          modifyState (withServerID None);;
          advancedDHCPServerTask_Ensure fuel' a spec
        else
          match err with
          | Some e => ret (Some (readingErr e))
          | None =>
              if strNeq (LogicalDhcpServer.DisplayName oldServer)
                        (LogicalDhcpServer.DisplayName server)
                 || strNeq (LogicalDhcpServer.DhcpProfileId oldServer)
                           (LogicalDhcpServer.DhcpProfileId server)
                 || match LogicalDhcpServer.Ipv4DhcpServer oldServer with
                    | None => true
                    | Some old4 =>
                        strNeq (IPv4DhcpServer.DhcpServerIp old4)
                               (IPv4DhcpServer.DhcpServerIp ipv4DhcpServer)
                        || strNeq (IPv4DhcpServer.GatewayIp old4)
                                  (IPv4DhcpServer.GatewayIp ipv4DhcpServer)
                        || negb (equalOrderedStrings
                                   (IPv4DhcpServer.DnsNameservers old4)
                                   (IPv4DhcpServer.DnsNameservers ipv4DhcpServer))
                    end
                 || negb (equalCommonTags (LogicalDhcpServer.Tags oldServer)
                                          (LogicalDhcpServer.Tags server))
              then
                '(_, resp, err) <-
                   invoke (CallUpdateDhcpServer serverID server)
                          (fun h => UpdateDhcpServer (ServicesApi (nsxClient a)) h
                                      serverID server);;
                match err with
                | Some e => ret (Some (updatingErr e))
                | None =>
                    r <- deref resp;;
                    if negb (StatusCode r =? StatusOK)
                    then ret (Some (Errorf ("updating failed with unexpected HTTP status code "
                                            ++ formatInt (StatusCode r))))
                    else ret None
                end
              else ret None
          end
    | None =>
        '(createdServer, resp, err) <-
           invoke (CallCreateDhcpServer server)
                  (fun h => CreateDhcpServer (ServicesApi (nsxClient a)) h server);;
        match err with
        | Some e => ret (Some (creatingErr e))
        | None =>
            r <- deref resp;;
            if negb (StatusCode r =? StatusCreated)
            then ret (Some (Errorf ("creating failed with unexpected HTTP status code "
                                    ++ formatInt (StatusCode r))))
            else
              modifyState (withServerID (Some (LogicalDhcpServer.Id createdServer)));;
              ret None
        end
    end
    end
    end
  end.

Definition advancedDHCPServerTask_EnsureDeleted (a : ensurer) (_ : NSXTInfraSpec)
  : M (bool * option error) :=
  st <- getState;;
  match ServerID (AdvancedDHCP st) with
  | None => ret (false, None)
  | Some serverID =>
      '(resp, err) <-
         invokeDelete (CallDeleteDhcpServer serverID)
                      (fun h => DeleteDhcpServer (ServicesApi (nsxClient a)) h serverID);;
      if respIsNotFound resp then
        modifyState (withServerID None);;
        ret (false, None)
      else
        match err with
        | Some e => ret (false, Some e)
        | None =>
            modifyState (withServerID None);;
            ret (true, None)
        end
  end.

(** *** Logical-switch lookup *)

Definition advancedLookupLogicalSwitchTask_reference (state : NSXTInfraState)
  : option Reference :=
  toReference (LogicalSwitchID (AdvancedDHCP state)).

(** The inner loop over [obj.Tags]. *)
Fixpoint hasPolicyPath (path : string) (tags : list Tag.t) : bool :=
  match tags with
  | [] => false
  | tag :: rest =>
      if String.eqb (Tag.Scope tag) "policyPath" && String.eqb (Tag.Tag tag) path
      then true
      else hasPolicyPath path rest
  end.

(** The outer loop over [result.Results]. *)
Fixpoint findLogicalSwitch (path : string) (results : list LogicalSwitch.t)
  : option LogicalSwitch.t :=
  match results with
  | [] => None
  | obj :: rest =>
      if hasPolicyPath path (LogicalSwitch.Tags obj)
      then Some obj
      else findLogicalSwitch path rest
  end.

Definition advancedLookupLogicalSwitchTask_Ensure (a : ensurer) (_ : NSXTInfraSpec)
  : M (option error) :=
  '(result, resp, err) <-
     invoke CallListLogicalSwitches (ListLogicalSwitches (LogicalSwitchingApi (nsxClient a)));;
  match err with
  | Some e => ret (Some e)
  | None =>
      r <- deref resp;;
      if negb (StatusCode r =? StatusOK)
      then ret (Some (Errorf ("listing failed with unexpected HTTP status code "
                              ++ formatInt (StatusCode r))))
      else
        st <- getState;;
        match findLogicalSwitch (Path (SegmentRef st))
                                (LogicalSwitchListResult.Results result) with
        | Some obj =>
            modifyState (withLogicalSwitchID (Some (LogicalSwitch.Id obj)));;
            ret None
        | None =>
            ret (Some (Errorf ("not found by segment path " ++ Path (SegmentRef st))))
        end
  end.

(** *** DHCP port *)

Definition advancedDHCPPortTask_reference (state : NSXTInfraState)
  : option Reference :=
  toReference (PortID (AdvancedDHCP state)).

Fixpoint advancedDHCPPortTask_Ensure (fuel : nat) (a : ensurer) (spec : NSXTInfraSpec)
  : M (option error) :=
  match fuel with
  | O => outOfFuel
  | S fuel' =>
    st <- getState;;
    serverID <- deref (ServerID (AdvancedDHCP st));;
    let attachment :=
      {| LogicalPortAttachment.AttachmentType := "DHCP_SERVICE";
         LogicalPortAttachment.Id := serverID |} in
    logicalSwitchID <- deref (LogicalSwitchID (AdvancedDHCP st));;
    let port :=
      {| LogicalPort.Id := EmptyString;
         LogicalPort.DisplayName := FullClusterName spec;
         LogicalPort.Description := description;
         LogicalPort.LogicalSwitchId := logicalSwitchID;
         LogicalPort.AdminState := "UP";
         LogicalPort.Tags := createCommonTags spec;
         LogicalPort.Attachment := Some attachment |} in
    match PortID (AdvancedDHCP st) with
    | Some portID =>
        '(oldPort, resp, err) <-
           invoke (CallGetLogicalPort portID)
                  (fun h => GetLogicalPort (LogicalSwitchingApi (nsxClient a)) h portID);;
        if respIsNotFound resp then
          modifyState (withPortID None);;
          advancedDHCPPortTask_Ensure fuel' a spec
        else
          match err with
          | Some e => ret (Some (readingErr e))
          | None =>
              if strNeq (LogicalPort.DisplayName oldPort) (LogicalPort.DisplayName port)
                 || strNeq (LogicalPort.LogicalSwitchId oldPort)
                           (LogicalPort.LogicalSwitchId port)
                 || strNeq (LogicalPort.AdminState oldPort) (LogicalPort.AdminState port)
                 || match LogicalPort.Attachment oldPort with
                    | None => true
                    | Some oldAttachment =>
                        strNeq (LogicalPortAttachment.AttachmentType oldAttachment)
                               (LogicalPortAttachment.AttachmentType attachment)
                        || strNeq (LogicalPortAttachment.Id oldAttachment)
                                  (LogicalPortAttachment.Id attachment)
                    end
                 || negb (equalCommonTags (LogicalPort.Tags oldPort) (LogicalPort.Tags port))
              then
                '(_, resp, err) <-
                   invoke (CallUpdateLogicalPort portID port)
                          (fun h => UpdateLogicalPort (LogicalSwitchingApi (nsxClient a)) h
                                      portID port);;
                match err with
                | Some e => ret (Some (updatingErr e))
                | None =>
                    r <- deref resp;;
                    if negb (StatusCode r =? StatusOK)
                    then ret (Some (Errorf ("updating failed with unexpected HTTP status code "
                                            ++ formatInt (StatusCode r))))
                    else ret None
                end
              else ret None
          end
    | None =>
        '(createdPort, resp, err) <-
           invoke (CallCreateLogicalPort port)
                  (fun h => CreateLogicalPort (LogicalSwitchingApi (nsxClient a)) h port);;
        match err with
        | Some e => ret (Some (creatingErr e))
        | None =>
            r <- deref resp;;
            if negb (StatusCode r =? StatusCreated)
            then ret (Some (Errorf ("creating failed with unexpected HTTP status code "
                                    ++ formatInt (StatusCode r))))
            else
              modifyState (withPortID (Some (LogicalPort.Id createdPort)));;
              ret None
        end
    end
  end.

Definition advancedDHCPPortTask_EnsureDeleted (a : ensurer) (_ : NSXTInfraSpec)
  : M (bool * option error) :=
  st <- getState;;
  match PortID (AdvancedDHCP st) with
  | None => ret (false, None)
  | Some portID =>
      (* localVarOptionals["detach"] = true *)
      '(resp, err) <-
         invokeDelete (CallDeleteLogicalPort portID true)
                      (fun h => DeleteLogicalPort (LogicalSwitchingApi (nsxClient a)) h
                                  portID true);;
      if respIsNotFound resp then
        modifyState (withPortID None);;
        ret (false, None)
      else
        match err with
        | Some e => ret (false, Some e)
        | None =>
            modifyState (withPortID None);;
            ret (true, None)
        end
  end.

(** *** DHCP IP pool *)

Definition advancedDHCPIPPoolTask_reference (state : NSXTInfraState)
  : option Reference :=
  toReference (IPPoolID (AdvancedDHCP state)).

Fixpoint advancedDHCPIPPoolTask_Ensure (fuel : nat) (a : ensurer) (spec : NSXTInfraSpec)
  : M (option error) :=
  match fuel with
  | O => outOfFuel
  | S fuel' =>
    match cidrHost (WorkersNetwork spec) 1 with
    | inl err => ret (Some (Wrapf err "gateway IP"))
    | inr gatewayIP =>
    match cidrHost (WorkersNetwork spec) 10 with
    | inl err => ret (Some (Wrapf err "start IP of pool"))
    | inr startIP =>
    match cidrHost (WorkersNetwork spec) (-1) with
    | inl err => ret (Some (Wrapf err "end IP of pool"))
    | inr endIP =>
    let ipPoolRange := {| IpPoolRange.Start := startIP; IpPoolRange.End_ := endIP |} in
    let pool :=
      {| DhcpIpPool.Id := EmptyString;
         DhcpIpPool.DisplayName := FullClusterName spec;
         DhcpIpPool.Description := description;
         DhcpIpPool.GatewayIp := gatewayIP;
         DhcpIpPool.LeaseTime := 7200;
         DhcpIpPool.ErrorThreshold := 98;
         DhcpIpPool.WarningThreshold := 70;
         DhcpIpPool.AllocationRanges := [ipPoolRange];
         DhcpIpPool.Tags := createCommonTags spec |} in
    st <- getState;;
    match IPPoolID (AdvancedDHCP st) with
    | Some ipPoolID =>
        serverID <- deref (ServerID (AdvancedDHCP st));;
        '(oldPool, resp, err) <-
           invoke (CallReadDhcpIpPool serverID ipPoolID)
                  (fun h => ReadDhcpIpPool (ServicesApi (nsxClient a)) h serverID ipPoolID);;
        if respIsNotFound resp then
          modifyState (withIPPoolID None);;
          advancedDHCPIPPoolTask_Ensure fuel' a spec
        else
          match err with
          | Some e => ret (Some (readingErr e))
          | None =>
              if strNeq (DhcpIpPool.DisplayName oldPool) (DhcpIpPool.DisplayName pool)
                 || strNeq (DhcpIpPool.GatewayIp oldPool) (DhcpIpPool.GatewayIp pool)
                 || negb (DhcpIpPool.LeaseTime oldPool =? DhcpIpPool.LeaseTime pool)
                 || (DhcpIpPool.ErrorThreshold oldPool =? DhcpIpPool.ErrorThreshold pool)
                 || (DhcpIpPool.WarningThreshold oldPool =? DhcpIpPool.WarningThreshold pool)
                 || match DhcpIpPool.AllocationRanges oldPool with
                    | [oldRange] =>
                        strNeq (IpPoolRange.Start oldRange) (IpPoolRange.Start ipPoolRange)
                        || strNeq (IpPoolRange.End_ oldRange) (IpPoolRange.End_ ipPoolRange)
                    | _ => true
                    end
                 || negb (equalCommonTags (DhcpIpPool.Tags oldPool) (DhcpIpPool.Tags pool))
              then
                '(_, resp, err) <-
                   invoke (CallUpdateDhcpIpPool serverID ipPoolID pool)
                          (fun h => UpdateDhcpIpPool (ServicesApi (nsxClient a)) h
                                      serverID ipPoolID pool);;
                match err with
                | Some e => ret (Some (updatingErr e))
                | None =>
                    r <- deref resp;;
                    if negb (StatusCode r =? StatusOK)
                    then ret (Some (Errorf ("updating failed with unexpected HTTP status code "
                                            ++ formatInt (StatusCode r))))
                    else ret None
                end
              else ret None
          end
    | None =>
        serverID <- deref (ServerID (AdvancedDHCP st));;
        '(createdPool, resp, err) <-
           invoke (CallCreateDhcpIpPool serverID pool)
                  (fun h => CreateDhcpIpPool (ServicesApi (nsxClient a)) h serverID pool);;
        match err with
        | Some e => ret (Some (creatingErr e))
        | None =>
            r <- deref resp;;
            if negb (StatusCode r =? StatusCreated)
            then ret (Some (Errorf ("creating failed with unexpected HTTP status code "
                                    ++ formatInt (StatusCode r))))
            else
              modifyState (withIPPoolID (Some (DhcpIpPool.Id createdPool)));;
              ret None
        end
    end
    end
    end
    end
  end.

Definition advancedDHCPIPPoolTask_EnsureDeleted (a : ensurer) (_ : NSXTInfraSpec)
  : M (bool * option error) :=
  st <- getState;;
  match IPPoolID (AdvancedDHCP st) with
  | None => ret (false, None)
  | Some ipPoolID =>
      serverID <- deref (ServerID (AdvancedDHCP st));;
      '(resp, err) <-
         invokeDelete (CallDeleteDhcpIpPool serverID ipPoolID)
                      (fun h => DeleteDhcpIpPool (ServicesApi (nsxClient a)) h
                                  serverID ipPoolID);;
      if respIsNotFound resp then
        modifyState (withIPPoolID None);;
        ret (false, None)
      else
        match err with
        | Some e => ret (false, Some e)
        | None =>
            modifyState (withIPPoolID None);;
            ret (true, None)
        end
  end.

(** *** The owning tasks as one family

    The four tasks that own a remote object share the shape of [Ensure] and
    [EnsureDeleted]; [ownID] is the field of [state.AdvancedDHCP] that the
    methods of a task test, clear and set. *)

Inductive owningTask : Type :=
| ProfileTask
| ServerTask
| PortTask
| IPPoolTask.

Definition ownID (t : owningTask) (st : NSXTInfraState) : option string :=
  match t with
  | ProfileTask => ProfileID (AdvancedDHCP st)
  | ServerTask => ServerID (AdvancedDHCP st)
  | PortTask => PortID (AdvancedDHCP st)
  | IPPoolTask => IPPoolID (AdvancedDHCP st)
  end.

Definition reference (t : owningTask) : NSXTInfraState -> option Reference :=
  match t with
  | ProfileTask => advancedDHCPProfileTask_reference
  | ServerTask => advancedDHCPServerTask_reference
  | PortTask => advancedDHCPPortTask_reference
  | IPPoolTask => advancedDHCPIPPoolTask_reference
  end.

Definition Ensure (t : owningTask) : nat -> ensurer -> NSXTInfraSpec -> M (option error) :=
  match t with
  | ProfileTask => advancedDHCPProfileTask_Ensure
  | ServerTask => advancedDHCPServerTask_Ensure
  | PortTask => advancedDHCPPortTask_Ensure
  | IPPoolTask => advancedDHCPIPPoolTask_Ensure
  end.

Definition EnsureDeleted (t : owningTask) : ensurer -> NSXTInfraSpec -> M (bool * option error) :=
  match t with
  | ProfileTask => advancedDHCPProfileTask_EnsureDeleted
  | ServerTask => advancedDHCPServerTask_EnsureDeleted
  | PortTask => advancedDHCPPortTask_EnsureDeleted
  | IPPoolTask => advancedDHCPIPPoolTask_EnsureDeleted
  end.

(** All six tasks: the two lookups have no recursion and ignore the fuel. *)
Inductive task : Type :=
| EdgeClusterLookup
| Owning (t : owningTask)
| LogicalSwitchLookup.

Definition taskEnsure (t : task) (fuel : nat) (a : ensurer) (spec : NSXTInfraSpec)
  : M (option error) :=
  match t with
  | EdgeClusterLookup => advancedLookupEdgeClusterTask_Ensure a spec
  | Owning t' => Ensure t' fuel a spec
  | LogicalSwitchLookup => advancedLookupLogicalSwitchTask_Ensure a spec
  end.

End Tasks.



(** ** Remote ends to run the tasks against *)

(** How a scripted remote end answers each kind of call, whatever was
    called before. *)
Record Replies := {
  onRead : option Response * option error;
  onCreate : option Response * option error;
  onUpdate : option Response * option error;
  onDelete : option Response * option error;
  onList : option Response * option error;
  edgeClusters : list EdgeCluster.t;
  logicalSwitches : list LogicalSwitch.t;
  profileOnRead : DhcpProfile.t;
  serverOnRead : LogicalDhcpServer.t;
  portOnRead : LogicalPort.t;
  poolOnRead : DhcpIpPool.t }.

Definition answer {A} (obj : A) (reply : option Response * option error)
  : A * option Response * option error :=
  (obj, fst reply, snd reply).

Definition createdID : string := "created-1".

Definition scriptedClient (r : Replies) : NSXClient :=
  {| NetworkTransportApi :=
       {| ListEdgeClusters := fun _ =>
            answer (EdgeClusterListResult.mk (edgeClusters r)) (onList r) |};
     ServicesApi :=
       {| ReadDhcpProfile := fun _ _ => answer (profileOnRead r) (onRead r);
          UpdateDhcpProfile := fun _ _ p => answer p (onUpdate r);
          CreateDhcpProfile := fun _ p =>
            answer (DhcpProfile.mk createdID (DhcpProfile.DisplayName p)
                      (DhcpProfile.Description p) (DhcpProfile.EdgeClusterId p)
                      (DhcpProfile.Tags p)) (onCreate r);
          DeleteDhcpProfile := fun _ _ => onDelete r;
          ReadDhcpServer := fun _ _ => answer (serverOnRead r) (onRead r);
          UpdateDhcpServer := fun _ _ p => answer p (onUpdate r);
          CreateDhcpServer := fun _ p =>
            answer (LogicalDhcpServer.mk createdID (LogicalDhcpServer.Description p)
                      (LogicalDhcpServer.DisplayName p) (LogicalDhcpServer.Tags p)
                      (LogicalDhcpServer.DhcpProfileId p)
                      (LogicalDhcpServer.Ipv4DhcpServer p)) (onCreate r);
          DeleteDhcpServer := fun _ _ => onDelete r;
          ReadDhcpIpPool := fun _ _ _ => answer (poolOnRead r) (onRead r);
          UpdateDhcpIpPool := fun _ _ _ p => answer p (onUpdate r);
          CreateDhcpIpPool := fun _ _ p =>
            answer (DhcpIpPool.mk createdID (DhcpIpPool.DisplayName p)
                      (DhcpIpPool.Description p) (DhcpIpPool.GatewayIp p)
                      (DhcpIpPool.LeaseTime p) (DhcpIpPool.ErrorThreshold p)
                      (DhcpIpPool.WarningThreshold p) (DhcpIpPool.AllocationRanges p)
                      (DhcpIpPool.Tags p)) (onCreate r);
          DeleteDhcpIpPool := fun _ _ _ => onDelete r |};
     LogicalSwitchingApi :=
       {| ListLogicalSwitches := fun _ =>
            answer (LogicalSwitchListResult.mk (logicalSwitches r)) (onList r);
          GetLogicalPort := fun _ _ => answer (portOnRead r) (onRead r);
          UpdateLogicalPort := fun _ _ p => answer p (onUpdate r);
          CreateLogicalPort := fun _ p =>
            answer (LogicalPort.mk createdID (LogicalPort.DisplayName p)
                      (LogicalPort.Description p) (LogicalPort.LogicalSwitchId p)
                      (LogicalPort.AdminState p) (LogicalPort.Tags p)
                      (LogicalPort.Attachment p)) (onCreate r);
          DeleteLogicalPort := fun _ _ _ => onDelete r |} |}.

Definition ok (code : Z) : option Response * option error :=
  (Some {| StatusCode := code |}, None).

(** The go-vmware-nsxt client hands back the response together with an
    error when the status is not a success. *)
Definition failed (code : Z) (msg : string) : option Response * option error :=
  (Some {| StatusCode := code |}, Some (TransportError msg)).

(** A healthy remote end on which the objects asked for do not exist. *)
Definition emptyRemote : Replies :=
  {| onRead := failed 404 "404 Not Found";
     onCreate := ok 201;
     onUpdate := ok 200;
     onDelete := failed 404 "404 Not Found";
     onList := ok 200;
     edgeClusters := [];
     logicalSwitches := [];
     profileOnRead := DhcpProfile.zero;
     serverOnRead := LogicalDhcpServer.zero;
     portOnRead := LogicalPort.zero;
     poolOnRead := DhcpIpPool.zero |}.

(** A remote end that fails every call with an internal server error. *)
Definition brokenRemote : Replies :=
  {| onRead := failed 500 "500 Internal Server Error";
     onCreate := failed 500 "500 Internal Server Error";
     onUpdate := failed 500 "500 Internal Server Error";
     onDelete := failed 500 "500 Internal Server Error";
     onList := failed 500 "500 Internal Server Error";
     edgeClusters := [];
     logicalSwitches := [];
     profileOnRead := DhcpProfile.zero;
     serverOnRead := LogicalDhcpServer.zero;
     portOnRead := LogicalPort.zero;
     poolOnRead := DhcpIpPool.zero |}.

(** A remote end that answers with a status and leaves the error nil:
    404 to a read or a delete, 500 to a create, an update or a list. *)
Definition statusOnlyRemote : Replies :=
  {| onRead := ok 404;
     onCreate := ok 500;
     onUpdate := ok 500;
     onDelete := ok 404;
     onList := ok 500;
     edgeClusters := [EdgeCluster.mk "edge-9" "edge-cluster"];
     logicalSwitches := [];
     profileOnRead := DhcpProfile.zero;
     serverOnRead := LogicalDhcpServer.zero;
     portOnRead := LogicalPort.zero;
     poolOnRead := DhcpIpPool.zero |}.


Definition poolWithId (id : string) (p : DhcpIpPool.t) : DhcpIpPool.t :=
  DhcpIpPool.mk id (DhcpIpPool.DisplayName p) (DhcpIpPool.Description p)
    (DhcpIpPool.GatewayIp p) (DhcpIpPool.LeaseTime p) (DhcpIpPool.ErrorThreshold p)
    (DhcpIpPool.WarningThreshold p) (DhcpIpPool.AllocationRanges p) (DhcpIpPool.Tags p).

(** The pool that a remote end holds after the calls of [h]: the one last
    created or updated, unless it was deleted since. *)
Fixpoint storedPool (h : History) (cur : option DhcpIpPool.t) : option DhcpIpPool.t :=
  match h with
  | [] => cur
  | ev :: rest =>
      match call ev, failure ev with
      | CallCreateDhcpIpPool _ p, None => storedPool rest (Some (poolWithId "pool-1" p))
      | CallUpdateDhcpIpPool _ id p, None => storedPool rest (Some (poolWithId id p))
      | CallDeleteDhcpIpPool _ _, None => storedPool rest None
      | _, _ => storedPool rest cur
      end
  end.

(** A remote end that keeps the IP pool it was given: a read hands back
    exactly what the last create or update stored, so nothing drifts. *)
Definition poolKeepingClient : NSXClient :=
  let base := scriptedClient emptyRemote in
  let services := ServicesApi base in
  {| NetworkTransportApi := NetworkTransportApi base;
     ServicesApi :=
       {| ReadDhcpProfile := ReadDhcpProfile services;
          UpdateDhcpProfile := UpdateDhcpProfile services;
          CreateDhcpProfile := CreateDhcpProfile services;
          DeleteDhcpProfile := DeleteDhcpProfile services;
          ReadDhcpServer := ReadDhcpServer services;
          UpdateDhcpServer := UpdateDhcpServer services;
          CreateDhcpServer := CreateDhcpServer services;
          DeleteDhcpServer := DeleteDhcpServer services;
          ReadDhcpIpPool := fun h _ _ =>
            match storedPool h None with
            | Some p => answer p (ok 200)
            | None => answer DhcpIpPool.zero (failed 404 "404 Not Found")
            end;
          UpdateDhcpIpPool := fun _ _ id p => answer (poolWithId id p) (ok 200);
          CreateDhcpIpPool := fun _ _ p => answer (poolWithId "pool-1" p) (ok 201);
          DeleteDhcpIpPool := fun _ _ _ => ok 200 |};
     LogicalSwitchingApi := LogicalSwitchingApi base |}.

Definition exampleDescription : string := "created by the infrastructure controller".

Definition exampleSpec : NSXTInfraSpec :=
  {| EdgeClusterName := "edge-cluster";
     WorkersNetwork := "10.0.0.0/24";
     DNSServers := ["8.8.8.8"; "8.8.4.4"];
     FullClusterName := "shoot--garden--demo";
     createCommonTags := [Tag.mk "owner" "gardener"; Tag.mk "cluster" "shoot--garden--demo"] |}.

(** A state in which every task has run: all six identifiers are set. *)
Definition fullState : NSXTInfraState :=
  {| SegmentRef := {| Path := "/infra/segments/demo" |};
     AdvancedDHCP := {| EdgeClusterID := Some "edge-1";
                        ProfileID := Some "profile-1";
                        ServerID := Some "server-1";
                        LogicalSwitchID := Some "switch-1";
                        PortID := Some "port-1";
                        IPPoolID := Some "pool-1" |} |}.

(** A state before the first pass: no identifier is set. *)
Definition emptyState : NSXTInfraState :=
  {| SegmentRef := {| Path := "/infra/segments/demo" |};
     AdvancedDHCP := {| EdgeClusterID := None; ProfileID := None; ServerID := None;
                        LogicalSwitchID := None; PortID := None; IPPoolID := None |} |}.

Definition start (st : NSXTInfraState) : Store := {| state := st; trace := [] |}.

(** The objects the tasks want for [exampleSpec] in [fullState], as a
    remote end holds them once created. *)
Definition exampleProfile : DhcpProfile.t :=
  DhcpProfile.mk "profile-1" "shoot--garden--demo" exampleDescription "edge-1"
    (createCommonTags exampleSpec).

Definition exampleServer (dns : list string) (tags : list Tag.t) : LogicalDhcpServer.t :=
  LogicalDhcpServer.mk "server-1" exampleDescription "shoot--garden--demo" tags
    "profile-1" (Some (IPv4DhcpServer.mk "10.0.0.2/24" dns "10.0.0.1")).

Definition examplePort : LogicalPort.t :=
  LogicalPort.mk "port-1" "shoot--garden--demo" exampleDescription "switch-1" "UP"
    (createCommonTags exampleSpec)
    (Some (LogicalPortAttachment.mk "DHCP_SERVICE" "server-1")).

Definition examplePool : DhcpIpPool.t :=
  DhcpIpPool.mk "pool-1" "shoot--garden--demo" exampleDescription "10.0.0.1"
    7200 98 70 [IpPoolRange.mk "10.0.0.10" "10.0.0.254"]
    (createCommonTags exampleSpec).

(** A healthy remote end that holds the objects above, with the DNS
    servers and the tags of the server in the given order. *)
Definition settledRemote (dns : list string) (tags : list Tag.t) : Replies :=
  {| onRead := ok 200;
     onCreate := ok 201;
     onUpdate := ok 200;
     onDelete := ok 200;
     onList := ok 200;
     edgeClusters := [EdgeCluster.mk "edge-1" "edge-cluster"];
     logicalSwitches :=
       [LogicalSwitch.mk "switch-1" [Tag.mk "policyPath" "/infra/segments/demo"]];
     profileOnRead := exampleProfile;
     serverOnRead := exampleServer dns tags;
     portOnRead := examplePort;
     poolOnRead := examplePool |}.

(** ** Fields and calls by task *)

(** The field of [state.AdvancedDHCP] that each of the six tasks sets. *)
Definition taskID (t : task) (st : NSXTInfraState) : option string :=
  match t with
  | EdgeClusterLookup => EdgeClusterID (AdvancedDHCP st)
  | Owning t' => ownID t' st
  | LogicalSwitchLookup => LogicalSwitchID (AdvancedDHCP st)
  end.

Definition task_eqb (t1 t2 : task) : bool :=
  match t1, t2 with
  | EdgeClusterLookup, EdgeClusterLookup => true
  | LogicalSwitchLookup, LogicalSwitchLookup => true
  | Owning ProfileTask, Owning ProfileTask => true
  | Owning ServerTask, Owning ServerTask => true
  | Owning PortTask, Owning PortTask => true
  | Owning IPPoolTask, Owning IPPoolTask => true
  | _, _ => false
  end.

(** The delete call that [EnsureDeleted] of a task builds from the state,
    if the identifiers it dereferences are set. *)
Definition deleteCall (t : owningTask) (st : NSXTInfraState) : option Call :=
  match t with
  | ProfileTask => option_map CallDeleteDhcpProfile (ProfileID (AdvancedDHCP st))
  | ServerTask => option_map CallDeleteDhcpServer (ServerID (AdvancedDHCP st))
  | PortTask =>
      option_map (fun id => CallDeleteLogicalPort id true) (PortID (AdvancedDHCP st))
  | IPPoolTask =>
      match ServerID (AdvancedDHCP st), IPPoolID (AdvancedDHCP st) with
      | Some serverID, Some ipPoolID => Some (CallDeleteDhcpIpPool serverID ipPoolID)
      | _, _ => None
      end
  end.

(** * Terraform values and status ([terraform.go]) *)

Definition TerraformOutputKeyNetworkName : string := "network_name".
Definition TerraformOutputKeyLogicalRouterId : string := "logical_router_id".
Definition TerraformOutputKeyLogicalSwitchId : string := "logical_switch_id".

(** A Go [map[string]V]: the first binding of a key is the one that
    counts, so putting a binding in front replaces the value of its key. *)
Definition StringMap (V : Type) : Type := list (string * V).

Fixpoint mapLookup {V} (k : string) (m : StringMap V) : option V :=
  match m with
  | [] => None
  | (k', v) :: rest => if String.eqb k k' then Some v else mapLookup k rest
  end.

(** [m[k] = v] *)
Definition mapInsert {V} (k : string) (v : V) (m : StringMap V) : StringMap V :=
  (k, v) :: m.

(** [m[k]] on a [map[string]string]: the empty string for a missing key. *)
Definition mapGet (m : StringMap string) (k : string) : string :=
  match mapLookup k m with
  | Some v => v
  | None => EmptyString
  end.

(** The structs of the package [apis/vsphere] that [terraform.go] reads
    and builds, with the fields it uses. *)
Module ZoneSpec.
Record t := mk {
  Name : string;
  Datacenter : option string;
  ComputeCluster : option string;
  ResourcePool : option string;
  HostSystem : option string;
  Datastore : option string;
  DatastoreCluster : option string }.
End ZoneSpec.

Module RegionSpec.
Record t := mk {
  Name : string;
  NSXTHost : string;
  NSXTInsecureSSL : bool;
  TransportZone : string;
  LogicalTier0Router : string;
  EdgeCluster : string;
  SNATIPPool : string;
  Datacenter : option string;
  Datastore : option string;
  DatastoreCluster : option string;
  Zones : list ZoneSpec.t;
  DNSServers : list string }.
End RegionSpec.

Module CloudProfileConfig.
Record t := mk {
  NamePrefix : string;
  Folder : string;
  DNSServers : list string }.
End CloudProfileConfig.

Module ZoneConfig.
Record t := mk {
  Datacenter : string;
  ComputeCluster : string;
  ResourcePool : string;
  HostSystem : string;
  Datastore : string;
  DatastoreCluster : string }.
End ZoneConfig.

Module VsphereConfig.
Record t := mk {
  Folder : string;
  Region : string;
  ZoneConfigs : StringMap ZoneConfig.t }.
End VsphereConfig.

Module InfrastructureStatus.
Record t := mk {
  APIVersion : string;
  Kind : string;
  Network : string;
  LogicalRouterId : string;
  LogicalSwitchId : string;
  VsphereConfig : VsphereConfig.t }.
End InfrastructureStatus.

(** [extensionsv1alpha1.Infrastructure]: [infra.Namespace],
    [infra.Spec.Region] and [infra.Spec.SSHPublicKey]. *)
Module Infrastructure.
Record t := mk {
  Namespace : string;
  Region : string;
  SSHPublicKey : string }.
End Infrastructure.

(** [corev1beta1.Networking]: the [Nodes] pointer. *)
Module Networking.
Record t := mk { Nodes : option string }.
End Networking.

(** [terraformState] *)
Module terraformState.
Record t := mk {
  NetworkName : string;
  LogicalRouterId : string;
  LogicalSwitchId : string }.
End terraformState.

(** [terraformer.Terraformer], as far as it is used: the output variables
    for a list of keys, or an error. *)
Record Terraformer := {
  GetStateOutputVariables : list string -> StringMap string * option error }.

(** A [map[string]interface{}] of chart values. *)
#[warnings="-register-all"]
Inductive Value : Type :=
| VString (s : string)
| VBool (b : bool)
| VStrings (l : list string)
| VMap (m : list (string * Value)).

Definition safe (s : option string) : string :=
  match s with
  | None => EmptyString
  | Some v => v
  end.

Definition extractTerraformState (tf : Terraformer) : error + terraformState.t :=
  let outputKeys := [TerraformOutputKeyNetworkName;
                     TerraformOutputKeyLogicalRouterId;
                     TerraformOutputKeyLogicalSwitchId] in
  match GetStateOutputVariables tf outputKeys with
  | (_, Some err) => inl err
  | (vars, None) =>
      inr {| terraformState.NetworkName := mapGet vars TerraformOutputKeyNetworkName;
             terraformState.LogicalRouterId :=
               mapGet vars TerraformOutputKeyLogicalRouterId;
             terraformState.LogicalSwitchId :=
               mapGet vars TerraformOutputKeyLogicalSwitchId |}
  end.

(** The body of the loop over [region.Zones] in [ComputeStatus]: the
    configuration of one zone, or the error that ends the loop. *)
Definition zoneConfig (region : RegionSpec.t) (z : ZoneSpec.t) : error + ZoneConfig.t :=
  let datacenter :=
    match ZoneSpec.Datacenter z with
    | Some d => Some d
    | None => RegionSpec.Datacenter region
    end in
  match datacenter with
  | None => inl (Errorf ("datacenter not set in zone " ++ ZoneSpec.Name z))
  | Some _ =>
      let '(datastore, datastoreCluster) :=
        match ZoneSpec.Datastore z with
        | Some d => (Some d, None)
        | None =>
            match ZoneSpec.DatastoreCluster z with
            | Some c => (None, Some c)
            | None => (RegionSpec.Datastore region, RegionSpec.DatastoreCluster region)
            end
        end in
      inr {| ZoneConfig.Datacenter := safe datacenter;
             ZoneConfig.ComputeCluster := safe (ZoneSpec.ComputeCluster z);
             ZoneConfig.ResourcePool := safe (ZoneSpec.ResourcePool z);
             ZoneConfig.HostSystem := safe (ZoneSpec.HostSystem z);
             ZoneConfig.Datastore := safe datastore;
             ZoneConfig.DatastoreCluster := safe datastoreCluster |}
  end.

(** The loop over [region.Zones], filling [zoneConfigs]. *)
Fixpoint zoneConfigsLoop (region : RegionSpec.t) (zones : list ZoneSpec.t)
    (zoneConfigs : StringMap ZoneConfig.t) : error + StringMap ZoneConfig.t :=
  match zones with
  | [] => inr zoneConfigs
  | z :: rest =>
      match zoneConfig region z with
      | inl err => inl err
      | inr c => zoneConfigsLoop region rest (mapInsert (ZoneSpec.Name z) c zoneConfigs)
      end
  end.

Section Terraform.

(** [helper.FindRegion], the [%q] verb of [fmt] and the string of
    [api.SchemeGroupVersion]: all three are declared outside this package. *)
Variable FindRegion : string -> CloudProfileConfig.t -> option RegionSpec.t.
Variable quote : string -> string.
Variable SchemeGroupVersion : string.

(** The argument [config] is not used by the function. *)
Definition ComputeTerraformerChartValues (infra : Infrastructure.t)
    (cloudProfileConfig : CloudProfileConfig.t) (networking : Networking.t)
  : Outcome (error + Value) :=
  match FindRegion (Infrastructure.Region infra) cloudProfileConfig with
  | None =>
      Returned (inl (Errorf ("region " ++ quote (Infrastructure.Region infra)
                             ++ " not found in cloud profile")))
  | Some region =>
      if Nat.eqb (length (RegionSpec.Zones region)) 0
      then Returned (inl (Errorf ("region " ++ quote (Infrastructure.Region infra)
                                  ++ " has no zones in cloud profile")))
      else
        let dnsServers :=
          if Nat.ltb 0 (length (RegionSpec.DNSServers region))
          then RegionSpec.DNSServers region
          else CloudProfileConfig.DNSServers cloudProfileConfig in
        match Networking.Nodes networking with
        | None => Panicked
        | Some nodes =>
            Returned (inr (VMap
              [("nsxt",
                VMap [("host", VString (RegionSpec.NSXTHost region));
                      ("insecure", VBool (RegionSpec.NSXTInsecureSSL region));
                      ("transportZone", VString (RegionSpec.TransportZone region));
                      ("logicalTier0Router",
                       VString (RegionSpec.LogicalTier0Router region));
                      ("edgeCluster", VString (RegionSpec.EdgeCluster region));
                      ("snatIpPool", VString (RegionSpec.SNATIPPool region));
                      ("namePrefix",
                       VString (CloudProfileConfig.NamePrefix cloudProfileConfig));
                      ("dnsServers", VStrings dnsServers)]);
               ("sshPublicKey", VString (Infrastructure.SSHPublicKey infra));
               ("clusterName", VString (Infrastructure.Namespace infra));
               ("networks", VMap [("worker", VString nodes)])]))
        end
  end.

Definition ComputeStatus (tf : Terraformer) (cloudProfileConfig : CloudProfileConfig.t)
    (regionName : string) : error + InfrastructureStatus.t :=
  match extractTerraformState tf with
  | inl err => inl err
  | inr state =>
      match FindRegion regionName cloudProfileConfig with
      | None =>
          inl (Errorf ("region " ++ quote regionName ++ " not found in cloud profile"))
      | Some region =>
          match zoneConfigsLoop region (RegionSpec.Zones region) [] with
          | inl err => inl err
          | inr zoneConfigs =>
              inr {| InfrastructureStatus.APIVersion := SchemeGroupVersion;
                     InfrastructureStatus.Kind := "InfrastructureStatus";
                     InfrastructureStatus.Network := terraformState.NetworkName state;
                     InfrastructureStatus.LogicalRouterId :=
                       terraformState.LogicalRouterId state;
                     InfrastructureStatus.LogicalSwitchId :=
                       terraformState.LogicalSwitchId state;
                     InfrastructureStatus.VsphereConfig :=
                       {| VsphereConfig.Folder :=
                            CloudProfileConfig.Folder cloudProfileConfig;
                          VsphereConfig.Region := RegionSpec.Name region;
                          VsphereConfig.ZoneConfigs := zoneConfigs |} |}
          end
      end
  end.

End Terraform.

(** The path to a value in nested chart values. *)
Fixpoint valueLookup (k : string) (m : list (string * Value)) : option Value :=
  match m with
  | [] => None
  | (k', v) :: rest => if String.eqb k k' then Some v else valueLookup k rest
  end.

Definition valueAt2 (k1 k2 : string) (v : Value) : option Value :=
  match v with
  | VMap m =>
      match valueLookup k1 m with
      | Some (VMap m') => valueLookup k2 m'
      | _ => None
      end
  | _ => None
  end.

(** Inputs to run [terraform.go] on. *)
Definition exampleZone (name : string) (datastore datastoreCluster : option string)
  : ZoneSpec.t :=
  ZoneSpec.mk name None (Some "cluster-a") None None datastore datastoreCluster.

Definition exampleRegion (zones : list ZoneSpec.t) (dns : list string) : RegionSpec.t :=
  RegionSpec.mk "europe" "nsxt.example.org" false "tz-overlay" "tier0" "edge-cluster"
    "snat-pool" (Some "dc-1") (Some "ds-region") (Some "dsc-region") zones dns.

Definition exampleCloudProfile : CloudProfileConfig.t :=
  CloudProfileConfig.mk "demo" "gardener-folder" ["1.1.1.1"].

Definition exampleTerraformer : Terraformer :=
  {| GetStateOutputVariables := fun _ =>
       ([("network_name", "net-1"); ("logical_router_id", "router-1")], None) |}.

Definition exampleQuote (s : string) : string := "<" ++ s ++ ">".

(** The zone that decides the entry of a name in [zoneConfigs]: the loop
    goes through [region.Zones] in order and a later zone overwrites the entry
    of an earlier one of the same name. *)
Definition lastZoneNamed (n : string) (zones : list ZoneSpec.t) : option ZoneSpec.t :=
  find (fun z => String.eqb n (ZoneSpec.Name z)) (rev zones).

(** * Properties *)

(** ** Proof machinery *)

Ltac unfold_task :=
  cbv [taskEnsure Ensure EnsureDeleted ownID
       advancedLookupEdgeClusterTask_Ensure advancedLookupLogicalSwitchTask_Ensure
       advancedDHCPProfileTask_EnsureDeleted advancedDHCPServerTask_EnsureDeleted
       advancedDHCPPortTask_EnsureDeleted advancedDHCPIPPoolTask_EnsureDeleted] in *;
  cbn [advancedDHCPProfileTask_Ensure advancedDHCPServerTask_Ensure
       advancedDHCPPortTask_Ensure advancedDHCPIPPoolTask_Ensure] in *;
  cbv [bind ret panic outOfFuel getState modifyState deref invoke invokeDelete] in *.

Ltac simpl_state :=
  cbn [state trace AdvancedDHCP SegmentRef EdgeClusterID ProfileID ServerID
       LogicalSwitchID PortID IPPoolID withProfileID withServerID withPortID
       withIPPoolID withEdgeClusterID withLogicalSwitchID] in *.

(** Split a run equation on the next test of the method body. *)
Ltac run_case H :=
  match type of H with
  | context [match ?x with _ => _ end] =>
      match x with
      | context [match _ with _ => _ end] => fail 1
      | _ => let E := fresh "E" in destruct x eqn:E
      end
  | context [if ?x then _ else _] =>
      match x with
      | context [match _ with _ => _ end] => fail 1
      | _ => let E := fresh "E" in destruct x eqn:E
      end
  end.

Lemma trace_first_event (h : History) (e ev : Event) (l rest : list Event) :
  (h ++ e :: l = h ++ ev :: rest)%list -> e = ev /\ l = rest.
Proof.
  intros H. apply app_inv_head in H. injection H as -> ->. auto.
Qed.

Lemma trace_two_events (h : History) (e1 e2 ev : Event) (rest : list Event) :
  ((h ++ [e1]) ++ [e2] = h ++ ev :: rest)%list -> e1 = ev /\ [e2] = rest.
Proof.
  rewrite <- app_assoc. apply trace_first_event.
Qed.

Lemma trace_no_event (h : History) (ev : Event) (rest : list Event) :
  (h = h ++ ev :: rest)%list -> False.
Proof.
  intros H. rewrite <- (app_nil_r h) in H at 1.
  apply app_inv_head in H. discriminate.
Qed.

(** Read the events of a finished run off its trace. *)
Ltac run_events Htr :=
  cbn [trace state] in Htr;
  first
    [ apply trace_no_event in Htr; contradiction
    | apply trace_two_events in Htr; destruct Htr as [<- <-]
    | apply trace_first_event in Htr; destruct Htr as [<- <-] ].

Lemma respIsNotFound_status (resp : option Response) :
  respIsNotFound resp = true -> option_map StatusCode resp = Some StatusNotFound.
Proof.
  destruct resp as [r|]; cbn; [|discriminate].
  rewrite Z.eqb_eq. intros ->. reflexivity.
Qed.

Lemma respIsNotFound_other (resp : option Response) :
  respIsNotFound resp = false -> option_map StatusCode resp <> Some StatusNotFound.
Proof.
  destruct resp as [r|]; cbn; [|discriminate].
  rewrite Z.eqb_neq. intros H1 H2. injection H2. exact H1.
Qed.

Ltac status_facts :=
  repeat match goal with
  | H : respIsNotFound _ = true |- _ => apply respIsNotFound_status in H
  | H : respIsNotFound _ = false |- _ => apply respIsNotFound_other in H
  end.

Lemma negb_eqb_true (x y : Z) : negb (x =? y) = true -> x <> y.
Proof. rewrite negb_true_iff. apply Z.eqb_neq. Qed.

Lemma negb_eqb_false (x y : Z) : negb (x =? y) = false -> x = y.
Proof. rewrite negb_false_iff. apply Z.eqb_eq. Qed.

Ltac status_code_facts :=
  repeat match goal with
  | H : negb (_ =? _) = true |- _ => apply negb_eqb_true in H
  | H : negb (_ =? _) = false |- _ => apply negb_eqb_false in H
  | H : Some _ = Some _ |- _ => injection H as H
  end.

Lemma trace_events_none (h : History) (evs : list Event) :
  (h = h ++ evs)%list -> evs = [].
Proof.
  intros H. rewrite <- (app_nil_r h) in H at 1. apply app_inv_head in H. auto.
Qed.

Lemma trace_events_one (h : History) (e1 : Event) (evs : list Event) :
  (h ++ [e1] = h ++ evs)%list -> evs = [e1].
Proof.
  intros H. apply app_inv_head in H. auto.
Qed.

Lemma trace_events_two (h : History) (e1 e2 : Event) (evs : list Event) :
  ((h ++ [e1]) ++ [e2] = h ++ evs)%list -> evs = [e1; e2].
Proof.
  rewrite <- app_assoc. intros H. apply app_inv_head in H. auto.
Qed.

(** All the events of a finished run. *)
Ltac run_all_events Htr :=
  cbn [trace state] in Htr;
  first
    [ apply trace_events_none in Htr
    | apply trace_events_two in Htr
    | apply trace_events_one in Htr ].

(** ** Tag and string-list comparison *)

Lemma foundIn_In (ai : Tag.t) (b : list Tag.t) : foundIn ai b = true <-> In ai b.
Proof.
  induction b as [|bi b IH]; cbn.
  - split; [discriminate | contradiction].
  - destruct (String.eqb (Tag.Scope ai) (Tag.Scope bi)
              && String.eqb (Tag.Tag ai) (Tag.Tag bi)) eqn:E.
    + apply andb_true_iff in E. destruct E as [E1 E2].
      apply String.eqb_eq in E1, E2.
      split; [intros _; left | reflexivity].
      destruct ai, bi; cbn in *; congruence.
    + rewrite IH. split; [auto|]. intros [<-|H]; [|exact H].
      rewrite !String.eqb_refl in E. discriminate.
Qed.

Lemma allFoundIn_incl (a b : list Tag.t) : allFoundIn a b = true <-> incl a b.
Proof.
  induction a as [|ai a IH]; cbn.
  - split; [intros _ x [] | reflexivity].
  - destruct (foundIn ai b) eqn:E; cbn.
    + rewrite IH. apply foundIn_In in E. split.
      * intros H x [<-|Hx]; auto.
      * intros H x Hx. apply H. right. exact Hx.
    + split; [discriminate|]. intros H.
      assert (Hin : In ai b) by (apply H; left; reflexivity).
      apply foundIn_In in Hin. congruence.
Qed.

Lemma equalCommonTags_spec (a b : list Tag.t) :
  equalCommonTags a b = true <-> length a = length b /\ incl a b.
Proof.
  unfold equalCommonTags. destruct (Nat.eqb (length a) (length b)) eqn:E; cbn.
  - apply Nat.eqb_eq in E. rewrite allFoundIn_incl. tauto.
  - apply Nat.eqb_neq in E. split; [discriminate | tauto].
Qed.

Lemma equalCommonTags_Permutation (a b : list Tag.t) :
  Permutation a b -> equalCommonTags a b = true.
Proof.
  intros H. apply equalCommonTags_spec. split.
  - apply Permutation_length. exact H.
  - intros x Hx. apply (Permutation_in _ H). exact Hx.
Qed.

Lemma equalCommonTags_NoDup (a b : list Tag.t) :
  NoDup a -> equalCommonTags a b = true -> Permutation a b.
Proof.
  intros Hnd H. apply equalCommonTags_spec in H. destruct H as [Hlen Hincl].
  apply NoDup_Permutation_bis; [exact Hnd | lia | exact Hincl].
Qed.

Lemma equalOrderedStrings_eq (a b : list string) :
  equalOrderedStrings a b = true <-> a = b.
Proof.
  revert b. induction a as [|x a IH]; intros [|y b]; cbn;
    try (split; [reflexivity || discriminate | reflexivity || discriminate]).
  rewrite andb_true_iff, String.eqb_eq, IH. split.
  - intros [-> ->]. reflexivity.
  - intros H. injection H as -> ->. auto.
Qed.

Lemma strNeq_refl (x : string) : strNeq x x = false.
Proof. unfold strNeq. rewrite String.eqb_refl. reflexivity. Qed.

Section Properties.

Variable description : string.

(** ** The trace only grows *)

Lemma Ensure_trace_extends (t : owningTask) fuel a spec s r s' :
  Ensure description t fuel a spec s = (r, s') ->
  exists evs, trace s' = (trace s ++ evs)%list.
Proof.
  revert t s r s'. induction fuel as [|fuel IH]; intros t s r s' Hrun.
  { exists []. rewrite app_nil_r.
    destruct t; unfold_task; injection Hrun as <- <-; reflexivity. }
  destruct t; unfold_task.
  all: repeat run_case Hrun.
  all: try (injection Hrun as <- <-; cbn [trace state];
            first [ exists []; rewrite app_nil_r; reflexivity
                  | rewrite <- app_assoc; eexists; reflexivity
                  | eexists; reflexivity ]).
  - apply (IH ProfileTask) in Hrun. destruct Hrun as [evs ->]. cbn [trace state].
    rewrite <- app_assoc. eexists; reflexivity.
  - apply (IH ServerTask) in Hrun. destruct Hrun as [evs ->]. cbn [trace state].
    rewrite <- app_assoc. eexists; reflexivity.
  - apply (IH PortTask) in Hrun. destruct Hrun as [evs ->]. cbn [trace state].
    rewrite <- app_assoc. eexists; reflexivity.
  - apply (IH IPPoolTask) in Hrun. destruct Hrun as [evs ->]. cbn [trace state].
    rewrite <- app_assoc. eexists; reflexivity.
Qed.

(** ** Two levels of calls are enough

    [Ensure] calls itself only after clearing the identifier it tested, so
    the inner call takes the create branch: more fuel than two changes
    nothing, and with two the fuel never runs out. *)

Ltac goal_case :=
  match goal with
  | |- context [match ?x with _ => _ end] =>
      match x with
      | context [match _ with _ => _ end] => fail 1
      | _ => destruct x eqn:?
      end
  | |- context [if ?x then _ else _] =>
      match x with
      | context [match _ with _ => _ end] => fail 1
      | _ => destruct x eqn:?
      end
  end.

Lemma Ensure_fuel_sufficient (t : owningTask) fuel a spec s :
  (2 <= fuel)%nat ->
  Ensure description t fuel a spec s = Ensure description t 2 a spec s.
Proof.
  intros Hfuel. destruct fuel as [|[|fuel]]; try lia. clear Hfuel.
  destruct t; unfold_task.
  all: repeat (simpl_state; first [reflexivity | goal_case]).
Qed.

Lemma Ensure_never_out_of_fuel (t : owningTask) fuel a spec s :
  (2 <= fuel)%nat ->
  fst (Ensure description t fuel a spec s) <> OutOfFuel.
Proof.
  intros Hfuel. rewrite Ensure_fuel_sufficient by exact Hfuel.
  destruct t; unfold_task.
  all: repeat (simpl_state; first [discriminate | goal_case]).
Qed.

(** ** Self-heal *)


(** ** Deletion *)


(** C8. For every owning task, [EnsureDeleted] on a state without the
    task's Reference returns [(false, nil)] and leaves the store as it was:
    no remote call, no change of state.  Hence, after an [EnsureDeleted]
    that returned without error, a second one returns [(false, nil)] and
    makes no remote call. *)
Theorem EnsureDeleted_nothing_to_delete (t : owningTask) a spec :
  (forall s, ownID t (state s) = None ->
     EnsureDeleted t a spec s = (Returned (false, None), s)) /\
  (forall s deleted s1, EnsureDeleted t a spec s = (Returned (deleted, None), s1) ->
     forall a' spec', EnsureDeleted t a' spec' s1 = (Returned (false, None), s1)).
Proof.
  assert (Habsent : forall a0 spec0 s, ownID t (state s) = None ->
            EnsureDeleted t a0 spec0 s = (Returned (false, None), s)).
  { intros a0 spec0 s H. destruct s as [st tr].
    destruct t; unfold_task; simpl_state; rewrite H; reflexivity. }
  split; [apply Habsent|].
  intros s deleted s1 Hrun a' spec'. apply Habsent.
  destruct t; unfold_task.
  all: repeat run_case Hrun.
  all: inversion Hrun; subst; simpl_state; solve [reflexivity | assumption].
Qed.

(** ** Reading *)

(** C9. For every owning task: when the read-by-id call fails with an
    error and does not report 404, [Ensure] returns that error wrapped as a
    reading error, makes no further remote call and leaves the state
    untouched. *)
Theorem Ensure_read_failure (t : owningTask) fuel a spec s r s' ev rest e :
  Ensure description t fuel a spec s = (r, s') ->
  trace s' = (trace s ++ ev :: rest)%list ->
  isRead (call ev) = true ->
  status ev <> Some StatusNotFound ->
  failure ev = Some e ->
  r = Returned (Some (readingErr e)) /\ state s' = state s /\ rest = [].
Proof.
  intros Hrun Htr Hread Hst Herr.
  destruct fuel as [|fuel].
  { destruct t; unfold_task; injection Hrun as <- <-; run_events Htr. }
  destruct t; unfold_task.
  all: repeat run_case Hrun.
  all: try (injection Hrun as <- <-; run_events Htr; cbn in *; status_facts;
            repeat split; congruence).
  all: first [ apply (Ensure_trace_extends ProfileTask) in Hrun
             | apply (Ensure_trace_extends ServerTask) in Hrun
             | apply (Ensure_trace_extends PortTask) in Hrun
             | apply (Ensure_trace_extends IPPoolTask) in Hrun ];
       destruct Hrun as [evs Hevs]; cbn [trace state] in Hevs;
       rewrite Hevs, <- app_assoc in Htr;
       apply trace_first_event in Htr; destruct Htr as [<- _];
       cbn in Hst; status_facts; congruence.
Qed.

(** ** Status checks *)


(** ** The IP pool without a server *)


(** ** Address derivation *)

(** C5.  For the worker subnet 10.0.0.0/24 the gateway is 10.0.0.1, the
    DHCP server address 10.0.0.2/24, the pool start 10.0.0.10 and the pool
    end 10.0.0.254, and these are the addresses in the objects the server
    task and the pool task send to the remote end, whatever the state, the
    history and the client are. *)
Theorem address_derivation fuel a spec s :
  WorkersNetwork spec = "10.0.0.0/24" ->
  cidrHost (WorkersNetwork spec) 1 = inr "10.0.0.1" /\
  cidrHostAndPrefix (WorkersNetwork spec) 2 = inr "10.0.0.2/24" /\
  cidrHost (WorkersNetwork spec) 10 = inr "10.0.0.10" /\
  cidrHost (WorkersNetwork spec) (-1) = inr "10.0.0.254" /\
  (forall profileID,
     ProfileID (AdvancedDHCP (state s)) = Some profileID ->
     ServerID (AdvancedDHCP (state s)) = None ->
     exists r s' ev,
       advancedDHCPServerTask_Ensure description (S fuel) a spec s = (r, s') /\
       trace s' = (trace s ++ [ev])%list /\
       call ev =
         CallCreateDhcpServer
           {| LogicalDhcpServer.Id := EmptyString;
              LogicalDhcpServer.Description := description;
              LogicalDhcpServer.DisplayName := FullClusterName spec;
              LogicalDhcpServer.Tags := createCommonTags spec;
              LogicalDhcpServer.DhcpProfileId := profileID;
              LogicalDhcpServer.Ipv4DhcpServer :=
                Some {| IPv4DhcpServer.DhcpServerIp := "10.0.0.2/24";
                        IPv4DhcpServer.DnsNameservers := DNSServers spec;
                        IPv4DhcpServer.GatewayIp := "10.0.0.1" |} |}) /\
  (forall serverID,
     ServerID (AdvancedDHCP (state s)) = Some serverID ->
     IPPoolID (AdvancedDHCP (state s)) = None ->
     exists r s' ev,
       advancedDHCPIPPoolTask_Ensure description (S fuel) a spec s = (r, s') /\
       trace s' = (trace s ++ [ev])%list /\
       call ev =
         CallCreateDhcpIpPool serverID
           {| DhcpIpPool.Id := EmptyString;
              DhcpIpPool.DisplayName := FullClusterName spec;
              DhcpIpPool.Description := description;
              DhcpIpPool.GatewayIp := "10.0.0.1";
              DhcpIpPool.LeaseTime := 7200;
              DhcpIpPool.ErrorThreshold := 98;
              DhcpIpPool.WarningThreshold := 70;
              DhcpIpPool.AllocationRanges :=
                [{| IpPoolRange.Start := "10.0.0.10";
                    IpPoolRange.End_ := "10.0.0.254" |}];
              DhcpIpPool.Tags := createCommonTags spec |}).
Proof.
  intros Hnet.
  assert (H1 : cidrHost (WorkersNetwork spec) 1 = inr "10.0.0.1")
    by (rewrite Hnet; reflexivity).
  assert (H2 : cidrHostAndPrefix (WorkersNetwork spec) 2 = inr "10.0.0.2/24")
    by (rewrite Hnet; reflexivity).
  assert (H10 : cidrHost (WorkersNetwork spec) 10 = inr "10.0.0.10")
    by (rewrite Hnet; reflexivity).
  assert (Hlast : cidrHost (WorkersNetwork spec) (-1) = inr "10.0.0.254")
    by (rewrite Hnet; reflexivity).
  repeat (split; [assumption|]).
  split.
  - intros profileID Hp Hs. unfold_task. rewrite H2, H1. simpl_state. rewrite Hp, Hs.
    match goal with
    | |- context [CreateDhcpServer ?x ?h ?o] =>
        destruct (CreateDhcpServer x h o) as [[created resp] [err|]]
    end.
    + do 3 eexists. repeat split; reflexivity.
    + destruct resp as [resp|]; [destruct (negb (StatusCode resp =? StatusCreated))|];
        do 3 eexists; repeat split; reflexivity.
  - intros serverID Hs Hp. unfold_task. rewrite H1, H10, Hlast. simpl_state.
    rewrite Hp, Hs.
    match goal with
    | |- context [CreateDhcpIpPool ?x ?h ?i ?o] =>
        destruct (CreateDhcpIpPool x h i o) as [[created resp] [err|]]
    end.
    + do 3 eexists. repeat split; reflexivity.
    + destruct resp as [resp|]; [destruct (negb (StatusCode resp =? StatusCreated))|];
        do 3 eexists; repeat split; reflexivity.
Qed.

(** ** A second [Ensure] against an unchanged remote object *)

(** The profile task makes no write when the profile read back has the
    desired name and edge cluster and a reordering of the desired tags. *)
Lemma profile_Ensure_unchanged fuel a spec s profileID edgeClusterID oldProfile resp :
  EdgeClusterID (AdvancedDHCP (state s)) = Some edgeClusterID ->
  ProfileID (AdvancedDHCP (state s)) = Some profileID ->
  ReadDhcpProfile (ServicesApi (nsxClient a)) (trace s) profileID
    = (oldProfile, resp, None) ->
  respIsNotFound resp = false ->
  DhcpProfile.DisplayName oldProfile = FullClusterName spec ->
  DhcpProfile.EdgeClusterId oldProfile = edgeClusterID ->
  Permutation (DhcpProfile.Tags oldProfile) (createCommonTags spec) ->
  advancedDHCPProfileTask_Ensure description (S fuel) a spec s
    = (Returned None,
       {| state := state s;
          trace := (trace s ++ [{| call := CallReadDhcpProfile profileID;
                                   status := option_map StatusCode resp;
                                   failure := None |}])%list |}).
Proof.
  intros He Hp Hread H404 Hname Hedge Htags.
  unfold_task. simpl_state. rewrite He, Hp, Hread, H404.
  cbn [DhcpProfile.DisplayName DhcpProfile.EdgeClusterId DhcpProfile.Tags].
  rewrite Hname, Hedge, !strNeq_refl, (equalCommonTags_Permutation _ _ Htags).
  reflexivity.
Qed.

(** The port task makes no write when the port read back has the desired
    name, switch, admin state and attachment and a reordering of the
    desired tags. *)
Lemma port_Ensure_unchanged fuel a spec s portID serverID logicalSwitchID oldPort resp :
  ServerID (AdvancedDHCP (state s)) = Some serverID ->
  LogicalSwitchID (AdvancedDHCP (state s)) = Some logicalSwitchID ->
  PortID (AdvancedDHCP (state s)) = Some portID ->
  GetLogicalPort (LogicalSwitchingApi (nsxClient a)) (trace s) portID
    = (oldPort, resp, None) ->
  respIsNotFound resp = false ->
  LogicalPort.DisplayName oldPort = FullClusterName spec ->
  LogicalPort.LogicalSwitchId oldPort = logicalSwitchID ->
  LogicalPort.AdminState oldPort = "UP" ->
  LogicalPort.Attachment oldPort
    = Some (LogicalPortAttachment.mk "DHCP_SERVICE" serverID) ->
  Permutation (LogicalPort.Tags oldPort) (createCommonTags spec) ->
  advancedDHCPPortTask_Ensure description (S fuel) a spec s
    = (Returned None,
       {| state := state s;
          trace := (trace s ++ [{| call := CallGetLogicalPort portID;
                                   status := option_map StatusCode resp;
                                   failure := None |}])%list |}).
Proof.
  intros Hs Hl Hp Hread H404 Hname Hswitch Hadmin Hatt Htags.
  unfold_task. simpl_state. rewrite Hs, Hl, Hp, Hread, H404.
  cbn [LogicalPort.DisplayName LogicalPort.LogicalSwitchId LogicalPort.AdminState
       LogicalPort.Attachment LogicalPort.Tags
       LogicalPortAttachment.AttachmentType LogicalPortAttachment.Id].
  rewrite Hname, Hswitch, Hadmin, Hatt.
  cbn [LogicalPortAttachment.AttachmentType LogicalPortAttachment.Id].
  rewrite !strNeq_refl, (equalCommonTags_Permutation _ _ Htags).
  reflexivity.
Qed.

(** The pool task updates whenever the pool read back carries the desired
    error threshold or the desired warning threshold, whatever its other
    fields are: also when it equals the desired pool field by field. *)
Lemma pool_Ensure_updates_on_equal_threshold fuel a spec s serverID ipPoolID
    gatewayIP startIP endIP oldPool resp :
  cidrHost (WorkersNetwork spec) 1 = inr gatewayIP ->
  cidrHost (WorkersNetwork spec) 10 = inr startIP ->
  cidrHost (WorkersNetwork spec) (-1) = inr endIP ->
  ServerID (AdvancedDHCP (state s)) = Some serverID ->
  IPPoolID (AdvancedDHCP (state s)) = Some ipPoolID ->
  ReadDhcpIpPool (ServicesApi (nsxClient a)) (trace s) serverID ipPoolID
    = (oldPool, resp, None) ->
  respIsNotFound resp = false ->
  DhcpIpPool.ErrorThreshold oldPool = 98 \/ DhcpIpPool.WarningThreshold oldPool = 70 ->
  exists r s' rev uev,
    advancedDHCPIPPoolTask_Ensure description (S fuel) a spec s = (r, s') /\
    trace s' = (trace s ++ [rev; uev])%list /\
    call rev = CallReadDhcpIpPool serverID ipPoolID /\
    call uev =
      CallUpdateDhcpIpPool serverID ipPoolID
        {| DhcpIpPool.Id := EmptyString;
           DhcpIpPool.DisplayName := FullClusterName spec;
           DhcpIpPool.Description := description;
           DhcpIpPool.GatewayIp := gatewayIP;
           DhcpIpPool.LeaseTime := 7200;
           DhcpIpPool.ErrorThreshold := 98;
           DhcpIpPool.WarningThreshold := 70;
           DhcpIpPool.AllocationRanges :=
             [{| IpPoolRange.Start := startIP; IpPoolRange.End_ := endIP |}];
           DhcpIpPool.Tags := createCommonTags spec |}.
Proof.
  intros H1 H10 Hlast Hs Hp Hread H404 Hthr.
  unfold_task. rewrite H1, H10, Hlast. simpl_state. rewrite Hp, Hs, Hread, H404.
  cbn [DhcpIpPool.ErrorThreshold DhcpIpPool.WarningThreshold].
  assert (Hdiff : ((DhcpIpPool.ErrorThreshold oldPool =? 98)
                   || (DhcpIpPool.WarningThreshold oldPool =? 70)) = true).
  { apply orb_true_iff. destruct Hthr as [H|H]; [left|right]; apply Z.eqb_eq; exact H. }
  match goal with
  | |- context [if ?c then _ else _] =>
      replace c with true
  end.
  2:{ symmetry. rewrite <- !orb_assoc.
      rewrite (orb_assoc (DhcpIpPool.ErrorThreshold oldPool =? 98)), Hdiff.
      rewrite !orb_true_r. reflexivity. }
  match goal with
  | |- context [UpdateDhcpIpPool ?x ?h ?i ?j ?o] =>
      destruct (UpdateDhcpIpPool x h i j o) as [[updated uresp] [uerr|]]
  end.
  + do 4 eexists. cbn [trace]. rewrite <- app_assoc. repeat split; reflexivity.
  + destruct uresp as [uresp|]; [destruct (negb (StatusCode uresp =? StatusOK))|];
      do 4 eexists; cbn [trace]; rewrite <- app_assoc; repeat split; reflexivity.
Qed.

(** ** What triggers an update *)

(** C6 (as amended).  [equalCommonTags a b] holds exactly when [a] and [b]
    have the same length and every tag of [a] occurs in [b].  It holds for
    any two lists that are permutations of each other, and when [a] has no
    duplicate it holds only for those.  DNS server lists are compared
    position by position.  In the server task, a read-back server that
    differs from the desired one only in the order of its tags causes no
    update, and a read-back server whose DNS list is not the desired list,
    position by position, causes an update with the desired list. *)
Theorem update_triggers :
  (forall a b, equalCommonTags a b = true <-> (length a = length b /\ incl a b)) /\
  (forall a b, Permutation a b -> equalCommonTags a b = true) /\
  (forall a b, NoDup a -> (equalCommonTags a b = true <-> Permutation a b)) /\
  (forall a b, equalOrderedStrings a b = true <-> a = b) /\
  (forall fuel a spec s serverID profileID dhcpServerIP gatewayIP oldServer resp,
     cidrHostAndPrefix (WorkersNetwork spec) 2 = inr dhcpServerIP ->
     cidrHost (WorkersNetwork spec) 1 = inr gatewayIP ->
     ProfileID (AdvancedDHCP (state s)) = Some profileID ->
     ServerID (AdvancedDHCP (state s)) = Some serverID ->
     ReadDhcpServer (ServicesApi (nsxClient a)) (trace s) serverID
       = (oldServer, resp, None) ->
     respIsNotFound resp = false ->
     LogicalDhcpServer.DisplayName oldServer = FullClusterName spec ->
     LogicalDhcpServer.DhcpProfileId oldServer = profileID ->
     LogicalDhcpServer.Ipv4DhcpServer oldServer
       = Some (IPv4DhcpServer.mk dhcpServerIP (DNSServers spec) gatewayIP) ->
     Permutation (LogicalDhcpServer.Tags oldServer) (createCommonTags spec) ->
     advancedDHCPServerTask_Ensure description (S fuel) a spec s
       = (Returned None,
          {| state := state s;
             trace := (trace s ++ [{| call := CallReadDhcpServer serverID;
                                      status := option_map StatusCode resp;
                                      failure := None |}])%list |})) /\
  (forall fuel a spec s serverID profileID dhcpServerIP gatewayIP oldServer old4 resp,
     cidrHostAndPrefix (WorkersNetwork spec) 2 = inr dhcpServerIP ->
     cidrHost (WorkersNetwork spec) 1 = inr gatewayIP ->
     ProfileID (AdvancedDHCP (state s)) = Some profileID ->
     ServerID (AdvancedDHCP (state s)) = Some serverID ->
     ReadDhcpServer (ServicesApi (nsxClient a)) (trace s) serverID
       = (oldServer, resp, None) ->
     respIsNotFound resp = false ->
     LogicalDhcpServer.Ipv4DhcpServer oldServer = Some old4 ->
     IPv4DhcpServer.DnsNameservers old4 <> DNSServers spec ->
     exists r s' rev uev server,
       advancedDHCPServerTask_Ensure description (S fuel) a spec s = (r, s') /\
       trace s' = (trace s ++ [rev; uev])%list /\
       call rev = CallReadDhcpServer serverID /\
       call uev = CallUpdateDhcpServer serverID server /\
       LogicalDhcpServer.Ipv4DhcpServer server
         = Some (IPv4DhcpServer.mk dhcpServerIP (DNSServers spec) gatewayIP)).
Proof.
  split; [exact equalCommonTags_spec|].
  split; [exact equalCommonTags_Permutation|].
  split.
  { intros a b Hnd. split;
      [apply equalCommonTags_NoDup; exact Hnd | apply equalCommonTags_Permutation]. }
  split; [exact equalOrderedStrings_eq|].
  split.
  - intros fuel a spec s serverID profileID dhcpServerIP gatewayIP oldServer resp
      H2 H1 Hp Hs Hread H404 Hname Hprof H4 Htags.
    unfold_task. rewrite H2, H1. simpl_state. rewrite Hp, Hs, Hread, H404.
    cbn [LogicalDhcpServer.Ipv4DhcpServer LogicalDhcpServer.DisplayName
         LogicalDhcpServer.DhcpProfileId LogicalDhcpServer.Tags
         IPv4DhcpServer.DnsNameservers IPv4DhcpServer.DhcpServerIp
         IPv4DhcpServer.GatewayIp].
    rewrite H4, Hname, Hprof.
    cbn [IPv4DhcpServer.DnsNameservers IPv4DhcpServer.DhcpServerIp
         IPv4DhcpServer.GatewayIp].
    rewrite !strNeq_refl, (equalCommonTags_Permutation _ _ Htags).
    rewrite (proj2 (equalOrderedStrings_eq _ _) eq_refl).
    reflexivity.
  - intros fuel a spec s serverID profileID dhcpServerIP gatewayIP oldServer old4 resp
      H2 H1 Hp Hs Hread H404 H4 Hdns.
    assert (Hneq : negb (equalOrderedStrings (IPv4DhcpServer.DnsNameservers old4)
                           (DNSServers spec)) = true).
    { apply negb_true_iff. destruct (equalOrderedStrings _ _) eqn:E; [|reflexivity].
      apply equalOrderedStrings_eq in E. contradiction. }
    unfold_task. rewrite H2, H1. simpl_state. rewrite Hp, Hs, Hread, H404.
    cbn [LogicalDhcpServer.Ipv4DhcpServer LogicalDhcpServer.DisplayName
         LogicalDhcpServer.DhcpProfileId LogicalDhcpServer.Tags
         IPv4DhcpServer.DnsNameservers IPv4DhcpServer.DhcpServerIp
         IPv4DhcpServer.GatewayIp].
    rewrite H4, Hneq. rewrite !orb_true_r. cbn [orb].
    match goal with
    | |- context [UpdateDhcpServer ?x ?h ?i ?o] =>
        destruct (UpdateDhcpServer x h i o) as [[updated uresp] [uerr|]]
    end.
    + do 5 eexists. cbn [trace]. rewrite <- app_assoc. repeat split; reflexivity.
    + destruct uresp as [uresp|]; [destruct (negb (StatusCode uresp =? StatusOK))|];
        do 5 eexists; cbn [trace]; rewrite <- app_assoc; repeat split; reflexivity.
Qed.

End Properties.

(** * The tasks at concrete inputs *)

(** ** Where the code departs from the stated behaviour *)

(** C1.  The pool task against a remote end that keeps what it is given:
    the first [Ensure] creates the pool, and the second one, with the same
    Spec, reads back a pool that equals the desired one in every field it
    compares (error threshold 98 and warning threshold 70 among them) and
    still issues an update. *)
Theorem pool_second_Ensure_writes :
  let a := {| nsxClient := poolKeepingClient |} in
  let first := advancedDHCPIPPoolTask_Ensure exampleDescription 2 a exampleSpec
                 (start (withIPPoolID None fullState)) in
  let second := advancedDHCPIPPoolTask_Ensure exampleDescription 2 a exampleSpec
                  (snd first) in
  fst first = Returned None /\
  state (snd first) = fullState /\
  map (fun ev => isWrite (call ev)) (trace (snd first)) = [true] /\
  storedPool (trace (snd first)) None = Some examplePool /\
  fst second = Returned None /\
  state (snd second) = fullState /\
  (exists desired,
     trace (snd second)
       = (trace (snd first)
          ++ [{| call := CallReadDhcpIpPool "server-1" "pool-1";
                 status := Some 200; failure := None |};
              {| call := CallUpdateDhcpIpPool "server-1" "pool-1" desired;
                 status := Some 200; failure := None |}])%list /\
     poolWithId "pool-1" desired = examplePool).
Proof.
  cbv zeta. repeat split; try (vm_compute; reflexivity).
  eexists. split; vm_compute; reflexivity.
Qed.

(** C10.  The reference accessor of the profile task reads the port
    identifier: it returns what the accessor of the port task returns, and
    on a state with a profile and without a port it returns nil where the
    Reference of the profile is expected. *)
Theorem profile_reference_reads_PortID :
  (forall st, advancedDHCPProfileTask_reference st
              = toReference (PortID (AdvancedDHCP st))) /\
  (forall st, advancedDHCPProfileTask_reference st = advancedDHCPPortTask_reference st) /\
  ProfileID (AdvancedDHCP (withPortID None fullState)) = Some "profile-1" /\
  advancedDHCPProfileTask_reference (withPortID None fullState) = None /\
  toReference (ProfileID (AdvancedDHCP (withPortID None fullState)))
    = Some {| ID := "profile-1" |} /\
  advancedDHCPProfileTask_reference fullState = Some {| ID := "port-1" |}.
Proof.
  repeat split.
Qed.

(** The edge-cluster lookup never looks at the response: with status 500
    and a nil error it goes on and stores the cluster it finds, where the
    logical-switch lookup returns an error. *)
Example lookups_on_status_500 :
  let a := {| nsxClient := scriptedClient statusOnlyRemote |} in
  advancedLookupEdgeClusterTask_Ensure a exampleSpec (start emptyState)
    = (Returned None,
       {| state := withEdgeClusterID (Some "edge-9") emptyState;
          trace := [{| call := CallListEdgeClusters;
                       status := Some 500; failure := None |}] |}) /\
  advancedLookupLogicalSwitchTask_Ensure a exampleSpec (start emptyState)
    = (Returned (Some (Errorf "listing failed with unexpected HTTP status code 500")),
       {| state := emptyState;
          trace := [{| call := CallListLogicalSwitches;
                       status := Some 500; failure := None |}] |}).
Proof.
  split; vm_compute; reflexivity.
Qed.

(** ** Counterexamples to the claims as stated *)



(** C6, as stated, fails: two tag lists of the same length that are not
    equal as multisets compare equal when the first repeats a tag of the
    second. *)
Lemma equalCommonTags_is_not_multiset_equality :
  let x := Tag.mk "owner" "gardener" in
  let y := Tag.mk "cluster" "shoot--garden--demo" in
  equalCommonTags [x; x] [x; y] = true /\ ~ Permutation [x; x] [x; y].
Proof.
  cbv zeta. split; [reflexivity|].
  intros H. apply Permutation_sym in H.
  assert (Hin : In (Tag.mk "cluster" "shoot--garden--demo")
                   [Tag.mk "owner" "gardener"; Tag.mk "owner" "gardener"]).
  { apply (Permutation_in _ H). right. left. reflexivity. }
  destruct Hin as [Hx|[Hx|[]]]; discriminate Hx.
Qed.

(** ** The theorems at concrete inputs *)



(** [EnsureDeleted_nothing_to_delete] for the pool task: on a state that
    never held a pool, and twice in a row on a state that holds one. *)
Lemma EnsureDeleted_nothing_to_delete_witness :
  let a := {| nsxClient := scriptedClient (settledRemote [] []) |} in
  let first := EnsureDeleted IPPoolTask a exampleSpec (start fullState) in
  (ownID IPPoolTask (state (start emptyState)) = None /\
   EnsureDeleted IPPoolTask a exampleSpec (start emptyState)
     = (Returned (false, None), start emptyState)) /\
  (EnsureDeleted IPPoolTask a exampleSpec (start fullState)
     = (Returned (true, None), snd first) /\
   map call (trace (snd first)) = [CallDeleteDhcpIpPool "server-1" "pool-1"] /\
   EnsureDeleted IPPoolTask a exampleSpec (snd first)
     = (Returned (false, None), snd first)).
Proof.
  cbv zeta.
  destruct (EnsureDeleted_nothing_to_delete IPPoolTask
              {| nsxClient := scriptedClient (settledRemote [] []) |} exampleSpec)
    as [Habsent Htwice].
  split; [split; [reflexivity | apply Habsent; reflexivity]|].
  split; [vm_compute; reflexivity|].
  split; [vm_compute; reflexivity|].
  apply (Htwice (start fullState) true). vm_compute; reflexivity.
Defined.

(** [Ensure_read_failure] for the port task: the remote end fails the read
    with an internal server error. *)
Lemma Ensure_read_failure_witness :
  let a := {| nsxClient := scriptedClient brokenRemote |} in
  let s := start fullState in
  let run := Ensure exampleDescription PortTask 2 a exampleSpec s in
  let e := TransportError "500 Internal Server Error" in
  let ev := {| call := CallGetLogicalPort "port-1"; status := Some 500;
               failure := Some e |} in
  trace (snd run) = [ev] /\
  fst run = Returned (Some (readingErr e)) /\ state (snd run) = state s /\ @nil Event = [].
Proof.
  cbv zeta. split; [vm_compute; reflexivity|].
  apply (Ensure_read_failure exampleDescription PortTask 2
           {| nsxClient := scriptedClient brokenRemote |} exampleSpec (start fullState)
           _ _
           {| call := CallGetLogicalPort "port-1"; status := Some 500;
              failure := Some (TransportError "500 Internal Server Error") |} []).
  - vm_compute; reflexivity.
  - vm_compute; reflexivity.
  - reflexivity.
  - discriminate.
  - reflexivity.
Defined.



(** [address_derivation] for [exampleSpec]: the pool that the pool task
    asks the remote end to create. *)
Lemma address_derivation_witness :
  let a := {| nsxClient := scriptedClient emptyRemote |} in
  let s := start (withIPPoolID None fullState) in
  WorkersNetwork exampleSpec = "10.0.0.0/24" /\
  cidrHost (WorkersNetwork exampleSpec) 1 = inr "10.0.0.1" /\
  cidrHostAndPrefix (WorkersNetwork exampleSpec) 2 = inr "10.0.0.2/24" /\
  cidrHost (WorkersNetwork exampleSpec) 10 = inr "10.0.0.10" /\
  cidrHost (WorkersNetwork exampleSpec) (-1) = inr "10.0.0.254" /\
  exists r s' ev,
    advancedDHCPIPPoolTask_Ensure exampleDescription 1 a exampleSpec s = (r, s') /\
    trace s' = (trace s ++ [ev])%list /\
    call ev = CallCreateDhcpIpPool "server-1" (poolWithId EmptyString examplePool).
Proof.
  cbv zeta. split; [reflexivity|].
  destruct (address_derivation exampleDescription 0
              {| nsxClient := scriptedClient emptyRemote |} exampleSpec
              (start (withIPPoolID None fullState)) eq_refl)
    as (H1 & H2 & H10 & Hlast & _ & Hpool).
  repeat (split; [assumption|]).
  apply (Hpool "server-1"); reflexivity.
Defined.

(** [update_triggers] at concrete inputs: a duplicate-free tag list and its
    reversal, and the server task against a remote end that holds the
    desired server with its tags, respectively its DNS servers, reversed. *)
Lemma update_triggers_witness :
  let tags := createCommonTags exampleSpec in
  let dns := DNSServers exampleSpec in
  let tagsReordered := {| nsxClient := scriptedClient (settledRemote dns (rev tags)) |} in
  let dnsReordered := {| nsxClient := scriptedClient (settledRemote (rev dns) tags) |} in
  (NoDup tags /\ Permutation (rev tags) tags /\ rev tags <> tags /\
   rev dns <> dns /\ Permutation (rev dns) dns) /\
  (equalCommonTags tags (rev tags) = true <-> Permutation tags (rev tags)) /\
  equalCommonTags (rev tags) tags = true /\
  (equalOrderedStrings (rev dns) dns = true <-> rev dns = dns) /\
  advancedDHCPServerTask_Ensure exampleDescription 1 tagsReordered exampleSpec
    (start fullState)
  = (Returned None,
     {| state := fullState;
        trace := [{| call := CallReadDhcpServer "server-1";
                     status := Some 200; failure := None |}] |}) /\
  exists r s' rev uev server,
    advancedDHCPServerTask_Ensure exampleDescription 1 dnsReordered exampleSpec
      (start fullState) = (r, s') /\
    trace s' = [rev; uev] /\
    call rev = CallReadDhcpServer "server-1" /\
    call uev = CallUpdateDhcpServer "server-1" server /\
    LogicalDhcpServer.Ipv4DhcpServer server
      = Some (IPv4DhcpServer.mk "10.0.0.2/24" dns "10.0.0.1").
Proof.
  cbv zeta.
  destruct (update_triggers exampleDescription)
    as (Hspec & Hperm & Hnodup & Hordered & Htags & Hdns).
  assert (Hnd : NoDup (createCommonTags exampleSpec)).
  { repeat constructor; cbn; intuition discriminate. }
  assert (Hrev : Permutation (rev (createCommonTags exampleSpec))
                   (createCommonTags exampleSpec)).
  { apply Permutation_sym, Permutation_rev. }
  split.
  { repeat split; try assumption; try discriminate.
    apply Permutation_sym, Permutation_rev. }
  split; [apply Hnodup; exact Hnd|].
  split; [apply Hperm; exact Hrev|].
  split; [apply Hordered|].
  split.
  - apply (Htags 0%nat
             {| nsxClient := scriptedClient
                  (settledRemote (DNSServers exampleSpec) (rev (createCommonTags exampleSpec))) |}
             exampleSpec (start fullState) "server-1" "profile-1" "10.0.0.2/24" "10.0.0.1"
             (exampleServer (DNSServers exampleSpec) (rev (createCommonTags exampleSpec)))
             (Some {| StatusCode := 200 |}));
      try reflexivity.
    exact Hrev.
  - apply (Hdns 0%nat
             {| nsxClient := scriptedClient
                  (settledRemote (rev (DNSServers exampleSpec)) (createCommonTags exampleSpec)) |}
             exampleSpec (start fullState) "server-1" "profile-1" "10.0.0.2/24" "10.0.0.1"
             (exampleServer (rev (DNSServers exampleSpec)) (createCommonTags exampleSpec))
             (IPv4DhcpServer.mk "10.0.0.2/24" (rev (DNSServers exampleSpec)) "10.0.0.1")
             (Some {| StatusCode := 200 |}));
      try reflexivity.
    discriminate.
Defined.

(** * Further properties of the tasks *)

Lemma strNeq_false (x y : string) : strNeq x y = false <-> x = y.
Proof. unfold strNeq. rewrite negb_false_iff. apply String.eqb_eq. Qed.

Lemma strNeq_true (x y : string) : strNeq x y = true <-> x <> y.
Proof. unfold strNeq. rewrite negb_true_iff. apply String.eqb_neq. Qed.

(* the result of a write whose reply is known *)
Ltac split_reply c :=
  destruct c as [[? uresp] [uerr|]];
  [| destruct uresp as [uresp|];
     [destruct (negb (StatusCode uresp =? StatusOK))|]].

Ltac finish_update :=
  match goal with
  | |- context [UpdateDhcpProfile ?x ?h ?i ?o] => split_reply (UpdateDhcpProfile x h i o)
  | |- context [UpdateDhcpServer ?x ?h ?i ?o] => split_reply (UpdateDhcpServer x h i o)
  | |- context [UpdateLogicalPort ?x ?h ?i ?o] => split_reply (UpdateLogicalPort x h i o)
  | |- context [UpdateDhcpIpPool ?x ?h ?i ?j ?o] =>
      split_reply (UpdateDhcpIpPool x h i j o)
  end.

Lemma findEdgeCluster_first (name : string) (pre post : list EdgeCluster.t)
    (obj : EdgeCluster.t) :
  (forall x, In x pre -> EdgeCluster.DisplayName x <> name) ->
  EdgeCluster.DisplayName obj = name ->
  findEdgeCluster name (pre ++ obj :: post) = Some obj.
Proof.
  intros Hpre Hobj. induction pre as [|x pre IH]; cbn.
  - rewrite Hobj, String.eqb_refl. reflexivity.
  - destruct (String.eqb (EdgeCluster.DisplayName x) name) eqn:E.
    + apply String.eqb_eq in E. exfalso. apply (Hpre x); [left; reflexivity | exact E].
    + apply IH. intros y Hy. apply Hpre. right. exact Hy.
Qed.

Lemma findEdgeCluster_none (name : string) (results : list EdgeCluster.t) :
  (forall x, In x results -> EdgeCluster.DisplayName x <> name) ->
  findEdgeCluster name results = None.
Proof.
  induction results as [|x l IH]; intros H; cbn; [reflexivity|].
  destruct (String.eqb (EdgeCluster.DisplayName x) name) eqn:E.
  - apply String.eqb_eq in E. exfalso. apply (H x); [left; reflexivity | exact E].
  - apply IH. intros y Hy. apply H. right. exact Hy.
Qed.

Lemma hasPolicyPath_In (path : string) (tags : list Tag.t) :
  hasPolicyPath path tags = true <-> In (Tag.mk "policyPath" path) tags.
Proof.
  induction tags as [|tag tags IH]; cbn.
  - split; [discriminate | contradiction].
  - destruct (String.eqb (Tag.Scope tag) "policyPath" && String.eqb (Tag.Tag tag) path)
      eqn:E.
    + apply andb_true_iff in E. destruct E as [E1 E2].
      apply String.eqb_eq in E1, E2. split; [intros _; left | reflexivity].
      destruct tag; cbn in *; congruence.
    + rewrite IH. split; [auto|]. intros [->|H]; [|exact H].
      cbn in E. rewrite String.eqb_refl in E. discriminate.
Qed.

Lemma findLogicalSwitch_first (path : string) (pre post : list LogicalSwitch.t)
    (obj : LogicalSwitch.t) :
  (forall x, In x pre -> ~ In (Tag.mk "policyPath" path) (LogicalSwitch.Tags x)) ->
  In (Tag.mk "policyPath" path) (LogicalSwitch.Tags obj) ->
  findLogicalSwitch path (pre ++ obj :: post) = Some obj.
Proof.
  intros Hpre Hobj. induction pre as [|x pre IH]; cbn.
  - apply hasPolicyPath_In in Hobj. rewrite Hobj. reflexivity.
  - destruct (hasPolicyPath path (LogicalSwitch.Tags x)) eqn:E.
    + apply hasPolicyPath_In in E. exfalso. apply (Hpre x); [left; reflexivity | exact E].
    + apply IH. intros y Hy. apply Hpre. right. exact Hy.
Qed.

Lemma findLogicalSwitch_none (path : string) (results : list LogicalSwitch.t) :
  (forall x, In x results -> ~ In (Tag.mk "policyPath" path) (LogicalSwitch.Tags x)) ->
  findLogicalSwitch path results = None.
Proof.
  induction results as [|x l IH]; intros H; cbn; [reflexivity|].
  destruct (hasPolicyPath path (LogicalSwitch.Tags x)) eqn:E.
  - apply hasPolicyPath_In in E. exfalso. apply (H x); [left; reflexivity | exact E].
  - apply IH. intros y Hy. apply H. right. exact Hy.
Qed.

Section TaskProperties.

Variable description : string.

(** ** What [Ensure] leaves alone *)

(** X1.  [Ensure] of a task never changes the segment reference nor the
    identifier of another task, whatever the remote end answers and however
    the method ends. *)
Theorem Ensure_keeps_other_identifiers (t : task) fuel a spec s r s' :
  taskEnsure description t fuel a spec s = (r, s') ->
  SegmentRef (state s') = SegmentRef (state s) /\
  forall t', task_eqb t t' = false -> taskID t' (state s') = taskID t' (state s).
Proof.
  intros Hrun.
  destruct t as [|t|]; [| destruct t; destruct fuel as [|[|fuel]] |]; unfold_task.
  all: repeat (simpl_state; run_case Hrun).
  all: injection Hrun as <- <-; simpl_state.
  all: split; [reflexivity|].
  all: intros [|[]|] Ht; try discriminate Ht; reflexivity.
Qed.

(** X2.  [Ensure] of an owning task makes no remote call, or one (a read or a
    create), or two (a read followed by a create or an update).  It never
    deletes and never writes twice. *)
Theorem Ensure_remote_calls (t : owningTask) fuel a spec s r s' :
  Ensure description t fuel a spec s = (r, s') ->
  exists evs, trace s' = (trace s ++ evs)%list /\
    (evs = [] \/
     (exists e, evs = [e] /\ (isRead (call e) || isCreate (call e)) = true) \/
     (exists e1 e2, evs = [e1; e2] /\ isRead (call e1) = true /\
        (isCreate (call e2) || isUpdate (call e2)) = true)).
Proof.
  intros Hrun.
  destruct t; destruct fuel as [|[|fuel]]; unfold_task.
  all: repeat (simpl_state; run_case Hrun).
  all: injection Hrun as <- <-; cbn [trace state].
  all: first [ exists []; rewrite app_nil_r; split; [reflexivity | left; reflexivity]
             | rewrite <- app_assoc; eexists; split; [reflexivity|];
               right; right; do 2 eexists; repeat split; reflexivity
             | eexists; split; [reflexivity|];
               right; left; eexists; split; reflexivity ].
Qed.

(** X3.  When [Ensure] of an owning task returns nil, the identifier of the
    task is set. *)
Theorem Ensure_success_sets_reference (t : owningTask) fuel a spec s s' :
  Ensure description t fuel a spec s = (Returned None, s') ->
  ownID t (state s') <> None.
Proof.
  intros Hrun.
  destruct t; destruct fuel as [|[|fuel]]; unfold_task.
  all: repeat (simpl_state; run_case Hrun).
  all: inversion Hrun; subst; simpl_state; congruence.
Qed.

(** ** Creating and updating *)

(** X4.  With the identifier of the task absent, [Ensure] makes no call but a
    create, returns nil exactly when it made one create that came back with a
    nil error and status 201, and otherwise leaves the state as it was. *)
Theorem Ensure_create_path (t : owningTask) fuel a spec s
    (r : Outcome (option error)) s' :
  (1 <= fuel)%nat ->
  ownID t (state s) = None ->
  Ensure description t fuel a spec s = (r, s') ->
  (r = Returned None <->
   exists ev, trace s' = (trace s ++ [ev])%list /\ isCreate (call ev) = true /\
              failure ev = None /\ status ev = Some StatusCreated) /\
  (r <> Returned None -> state s' = state s) /\
  (forall evs, trace s' = (trace s ++ evs)%list ->
   forall ev, In ev evs -> isCreate (call ev) = true).
Proof.
  intros Hfuel Hid Hrun.
  destruct fuel as [|fuel]; [lia|]. clear Hfuel.
  destruct t; unfold_task; cbn in Hid.
  all: repeat (simpl_state; run_case Hrun).
  all: try congruence.
  all: injection Hrun as <- <-; cbn [trace state].
  all: split; [split; [intros Hr; try discriminate Hr | intros (ev & Htr & Hc & Hf & Hs)] |].
  all: try (eexists; repeat split; cbn [call status failure isCreate option_map];
            status_code_facts; congruence).
  all: try (first [ apply trace_events_none in Htr; discriminate Htr
                  | apply trace_events_one in Htr; injection Htr as Htr; subst ev;
                    cbn [call status failure option_map] in *;
                    status_code_facts; congruence ]).
  all: try reflexivity.
  all: split; [intros Hr; try reflexivity; congruence|].
  all: intros evs Htr ev Hin; run_all_events Htr; subst evs;
       cbn [In] in Hin; try contradiction.
  all: destruct Hin as [<-|[]]; reflexivity.
Qed.

(** X5.  A create that fails makes [Ensure] return the error wrapped by
    [creatingErr] with the identifier of the task nil; an update that fails
    makes it return the error wrapped by [updatingErr] with the state as it
    was.  The status of the response is not looked at in either case. *)
Theorem Ensure_write_failure (t : owningTask) fuel a spec s r s' evs ev e :
  Ensure description t fuel a spec s = (r, s') ->
  trace s' = (trace s ++ evs)%list ->
  In ev evs ->
  failure ev = Some e ->
  (isCreate (call ev) = true ->
     r = Returned (Some (creatingErr e)) /\ ownID t (state s') = None) /\
  (isUpdate (call ev) = true ->
     r = Returned (Some (updatingErr e)) /\ state s' = state s).
Proof.
  intros Hrun Htr Hin Hfail.
  destruct t; destruct fuel as [|[|fuel]]; unfold_task.
  all: repeat (simpl_state; run_case Hrun).
  all: injection Hrun as <- <-; run_all_events Htr; subst evs.
  all: cbn [In] in Hin;
       repeat match goal with H : _ \/ _ |- _ => destruct H as [H|H] end;
       try contradiction; subst ev;
       cbn [call status failure isCreate isUpdate] in *; try discriminate.
  all: split; intros Hk; try discriminate Hk.
  all: injection Hfail as <-; simpl_state; split; try reflexivity; try assumption.
Qed.

(** X6.  With the identifier of the task set, [Ensure] changes the state only
    if its read was answered 404. *)
Theorem Ensure_identity_stable (t : owningTask) fuel a spec s r s' id :
  ownID t (state s) = Some id ->
  Ensure description t fuel a spec s = (r, s') ->
  state s' = state s \/
  exists ev rest, trace s' = (trace s ++ ev :: rest)%list /\
    isRead (call ev) = true /\ status ev = Some StatusNotFound.
Proof.
  intros Hid Hrun.
  destruct t; destruct fuel as [|[|fuel]]; unfold_task; cbn in Hid.
  all: repeat (simpl_state; run_case Hrun).
  all: try congruence.
  all: injection Hrun as <- <-; cbn [trace state].
  all: try (left; reflexivity).
  all: right; status_facts; try rewrite <- app_assoc;
       do 2 eexists; split; [reflexivity|]; split; [reflexivity | assumption].
Qed.

(** X7.  The profile task, after a read without error and without 404: it
    updates unless the name, the edge cluster and (by [equalCommonTags]) the
    tags read back are the desired ones; the description is not compared.
    The state is left as it was either way. *)
Theorem profile_update_decision fuel a spec s profileID edgeClusterID oldProfile resp :
  EdgeClusterID (AdvancedDHCP (state s)) = Some edgeClusterID ->
  ProfileID (AdvancedDHCP (state s)) = Some profileID ->
  ReadDhcpProfile (ServicesApi (nsxClient a)) (trace s) profileID
    = (oldProfile, resp, None) ->
  respIsNotFound resp = false ->
  let rev := {| call := CallReadDhcpProfile profileID;
                status := option_map StatusCode resp; failure := None |} in
  let unchanged :=
    DhcpProfile.DisplayName oldProfile = FullClusterName spec /\
    DhcpProfile.EdgeClusterId oldProfile = edgeClusterID /\
    equalCommonTags (DhcpProfile.Tags oldProfile) (createCommonTags spec) = true in
  exists r s',
    advancedDHCPProfileTask_Ensure description (S fuel) a spec s = (r, s') /\
    state s' = state s /\
    (unchanged -> r = Returned None /\ trace s' = (trace s ++ [rev])%list) /\
    (~ unchanged ->
     exists uev, trace s' = (trace s ++ [rev; uev])%list /\
       call uev = CallUpdateDhcpProfile profileID
                    (DhcpProfile.mk EmptyString (FullClusterName spec) description
                       edgeClusterID (createCommonTags spec))).
Proof.
  intros He Hp Hread H404 rev unchanged. subst rev unchanged.
  unfold_task. simpl_state. rewrite He, Hp, Hread, H404.
  cbn [DhcpProfile.DisplayName DhcpProfile.EdgeClusterId DhcpProfile.Tags].
  destruct (strNeq (DhcpProfile.DisplayName oldProfile) (FullClusterName spec)) eqn:E1;
  destruct (strNeq (DhcpProfile.EdgeClusterId oldProfile) edgeClusterID) eqn:E2;
  destruct (equalCommonTags (DhcpProfile.Tags oldProfile) (createCommonTags spec)) eqn:E3;
  cbn [orb negb].
  all: try (apply strNeq_true in E1); try (apply strNeq_false in E1).
  all: try (apply strNeq_true in E2); try (apply strNeq_false in E2).
  all: try finish_update.
  all: do 2 eexists; (split; [reflexivity|]); cbn [state trace];
       (split; [reflexivity|]); try rewrite <- app_assoc;
       (split; [intros (H1 & H2 & H3); try congruence; split; reflexivity|]).
  all: intros Hn; try (exfalso; apply Hn; repeat split; assumption).
  all: eexists; split; reflexivity.
Qed.

(** X8.  The server task, after a read without error and without 404: it
    updates unless the name, the profile, the IPv4 part (which must be
    present: server address, gateway, DNS servers by [equalOrderedStrings])
    and the tags read back are the desired ones. *)
Theorem server_update_decision fuel a spec s serverID profileID dhcpServerIP gatewayIP
    oldServer resp :
  cidrHostAndPrefix (WorkersNetwork spec) 2 = inr dhcpServerIP ->
  cidrHost (WorkersNetwork spec) 1 = inr gatewayIP ->
  ProfileID (AdvancedDHCP (state s)) = Some profileID ->
  ServerID (AdvancedDHCP (state s)) = Some serverID ->
  ReadDhcpServer (ServicesApi (nsxClient a)) (trace s) serverID
    = (oldServer, resp, None) ->
  respIsNotFound resp = false ->
  let rev := {| call := CallReadDhcpServer serverID;
                status := option_map StatusCode resp; failure := None |} in
  let unchanged :=
    LogicalDhcpServer.DisplayName oldServer = FullClusterName spec /\
    LogicalDhcpServer.DhcpProfileId oldServer = profileID /\
    (exists old4, LogicalDhcpServer.Ipv4DhcpServer oldServer = Some old4 /\
       IPv4DhcpServer.DhcpServerIp old4 = dhcpServerIP /\
       IPv4DhcpServer.GatewayIp old4 = gatewayIP /\
       equalOrderedStrings (IPv4DhcpServer.DnsNameservers old4) (DNSServers spec) = true) /\
    equalCommonTags (LogicalDhcpServer.Tags oldServer) (createCommonTags spec) = true in
  exists r s',
    advancedDHCPServerTask_Ensure description (S fuel) a spec s = (r, s') /\
    state s' = state s /\
    (unchanged -> r = Returned None /\ trace s' = (trace s ++ [rev])%list) /\
    (~ unchanged ->
     exists uev, trace s' = (trace s ++ [rev; uev])%list /\
       call uev = CallUpdateDhcpServer serverID
                    (LogicalDhcpServer.mk EmptyString description (FullClusterName spec)
                       (createCommonTags spec) profileID
                       (Some (IPv4DhcpServer.mk dhcpServerIP (DNSServers spec) gatewayIP)))).
Proof.
  intros H2 H1 Hp Hs Hread H404 rev unchanged. subst rev unchanged.
  unfold_task. rewrite H2, H1. simpl_state. rewrite Hp, Hs, Hread, H404.
  cbn [LogicalDhcpServer.Ipv4DhcpServer LogicalDhcpServer.DisplayName
       LogicalDhcpServer.DhcpProfileId LogicalDhcpServer.Tags
       IPv4DhcpServer.DnsNameservers IPv4DhcpServer.DhcpServerIp
       IPv4DhcpServer.GatewayIp].
  match goal with
  | |- context [if ?c then _ else _] => destruct c eqn:Hcond
  end.
  - finish_update.
    all: do 2 eexists; (split; [reflexivity|]); cbn [state trace];
         (split; [reflexivity|]); rewrite <- app_assoc; split.
    all: try (intros _; eexists; split; reflexivity).
    all: intros (Hn & Hpr & (old4 & H4 & Hip & Hgw & Hdns) & Htags); exfalso;
         rewrite Hn, Hpr, H4, Hip, Hgw, Hdns, Htags, !strNeq_refl in Hcond;
         discriminate Hcond.
  - do 2 eexists; (split; [reflexivity|]); cbn [state trace]; (split; [reflexivity|]).
    split; [intros _; split; reflexivity|].
    intros Hn. exfalso. apply Hn.
    repeat (apply orb_false_iff in Hcond; destruct Hcond as [Hcond ?]).
    destruct (LogicalDhcpServer.Ipv4DhcpServer oldServer) as [old4|]; [|discriminate].
    repeat match goal with
    | H : _ || _ = false |- _ => apply orb_false_iff in H; destruct H
    | H : strNeq _ _ = false |- _ => apply strNeq_false in H
    | H : negb _ = false |- _ => apply negb_false_iff in H
    end.
    repeat split; try assumption.
    exists old4. repeat split; assumption.
Qed.

(** X9.  The port task, after a read without error and without 404: it updates
    unless the name, the switch, the admin state, the attachment (which must
    be present, of type DHCP_SERVICE and to the server) and the tags read
    back are the desired ones. *)
Theorem port_update_decision fuel a spec s portID serverID logicalSwitchID oldPort resp :
  ServerID (AdvancedDHCP (state s)) = Some serverID ->
  LogicalSwitchID (AdvancedDHCP (state s)) = Some logicalSwitchID ->
  PortID (AdvancedDHCP (state s)) = Some portID ->
  GetLogicalPort (LogicalSwitchingApi (nsxClient a)) (trace s) portID
    = (oldPort, resp, None) ->
  respIsNotFound resp = false ->
  let rev := {| call := CallGetLogicalPort portID;
                status := option_map StatusCode resp; failure := None |} in
  let unchanged :=
    LogicalPort.DisplayName oldPort = FullClusterName spec /\
    LogicalPort.LogicalSwitchId oldPort = logicalSwitchID /\
    LogicalPort.AdminState oldPort = "UP" /\
    LogicalPort.Attachment oldPort
      = Some (LogicalPortAttachment.mk "DHCP_SERVICE" serverID) /\
    equalCommonTags (LogicalPort.Tags oldPort) (createCommonTags spec) = true in
  exists r s',
    advancedDHCPPortTask_Ensure description (S fuel) a spec s = (r, s') /\
    state s' = state s /\
    (unchanged -> r = Returned None /\ trace s' = (trace s ++ [rev])%list) /\
    (~ unchanged ->
     exists uev, trace s' = (trace s ++ [rev; uev])%list /\
       call uev = CallUpdateLogicalPort portID
                    (LogicalPort.mk EmptyString (FullClusterName spec) description
                       logicalSwitchID "UP" (createCommonTags spec)
                       (Some (LogicalPortAttachment.mk "DHCP_SERVICE" serverID)))).
Proof.
  intros Hs Hl Hp Hread H404 rev unchanged. subst rev unchanged.
  unfold_task. simpl_state. rewrite Hs, Hl, Hp, Hread, H404.
  cbn [LogicalPort.DisplayName LogicalPort.LogicalSwitchId LogicalPort.AdminState
       LogicalPort.Attachment LogicalPort.Tags
       LogicalPortAttachment.AttachmentType LogicalPortAttachment.Id].
  match goal with
  | |- context [if ?c then _ else _] => destruct c eqn:Hcond
  end.
  - finish_update.
    all: do 2 eexists; (split; [reflexivity|]); cbn [state trace];
         (split; [reflexivity|]); rewrite <- app_assoc; split.
    all: try (intros _; eexists; split; reflexivity).
    all: intros (Hn & Hsw & Had & Hat & Htags); exfalso;
         rewrite Hn, Hsw, Had, Hat, Htags in Hcond;
         cbn [LogicalPortAttachment.AttachmentType LogicalPortAttachment.Id] in Hcond;
         rewrite !strNeq_refl in Hcond; discriminate Hcond.
  - do 2 eexists; (split; [reflexivity|]); cbn [state trace]; (split; [reflexivity|]).
    split; [intros _; split; reflexivity|].
    intros Hn. exfalso. apply Hn.
    repeat (apply orb_false_iff in Hcond; destruct Hcond as [Hcond ?]).
    destruct (LogicalPort.Attachment oldPort) as [[ty id]|]; [|discriminate].
    cbn [LogicalPortAttachment.AttachmentType LogicalPortAttachment.Id] in *.
    repeat match goal with
    | H : _ || _ = false |- _ => apply orb_false_iff in H; destruct H
    | H : strNeq _ _ = false |- _ => apply strNeq_false in H
    | H : negb _ = false |- _ => apply negb_false_iff in H
    end.
    repeat split; try assumption. congruence.
Qed.

(** X10.  The pool task, after a read without error and without 404: the only
    pools it leaves untouched are those that agree with the desired pool in
    name, gateway, lease time, allocation range and tags and whose error
    threshold is not 98 and whose warning threshold is not 70; every other
    pool is updated to the desired one. *)
Theorem pool_update_decision fuel a spec s serverID ipPoolID gatewayIP startIP endIP
    oldPool resp :
  cidrHost (WorkersNetwork spec) 1 = inr gatewayIP ->
  cidrHost (WorkersNetwork spec) 10 = inr startIP ->
  cidrHost (WorkersNetwork spec) (-1) = inr endIP ->
  ServerID (AdvancedDHCP (state s)) = Some serverID ->
  IPPoolID (AdvancedDHCP (state s)) = Some ipPoolID ->
  ReadDhcpIpPool (ServicesApi (nsxClient a)) (trace s) serverID ipPoolID
    = (oldPool, resp, None) ->
  respIsNotFound resp = false ->
  let rev := {| call := CallReadDhcpIpPool serverID ipPoolID;
                status := option_map StatusCode resp; failure := None |} in
  let untouched :=
    DhcpIpPool.DisplayName oldPool = FullClusterName spec /\
    DhcpIpPool.GatewayIp oldPool = gatewayIP /\
    DhcpIpPool.LeaseTime oldPool = 7200 /\
    DhcpIpPool.ErrorThreshold oldPool <> 98 /\
    DhcpIpPool.WarningThreshold oldPool <> 70 /\
    DhcpIpPool.AllocationRanges oldPool = [IpPoolRange.mk startIP endIP] /\
    equalCommonTags (DhcpIpPool.Tags oldPool) (createCommonTags spec) = true in
  exists r s',
    advancedDHCPIPPoolTask_Ensure description (S fuel) a spec s = (r, s') /\
    state s' = state s /\
    (untouched -> r = Returned None /\ trace s' = (trace s ++ [rev])%list) /\
    (~ untouched ->
     exists uev, trace s' = (trace s ++ [rev; uev])%list /\
       call uev = CallUpdateDhcpIpPool serverID ipPoolID
                    (DhcpIpPool.mk EmptyString (FullClusterName spec) description
                       gatewayIP 7200 98 70 [IpPoolRange.mk startIP endIP]
                       (createCommonTags spec))).
Proof.
  intros H1 H10 Hlast Hs Hp Hread H404 rev untouched. subst rev untouched.
  unfold_task. rewrite H1, H10, Hlast. simpl_state. rewrite Hp, Hs, Hread, H404.
  cbn [DhcpIpPool.DisplayName DhcpIpPool.GatewayIp DhcpIpPool.LeaseTime
       DhcpIpPool.ErrorThreshold DhcpIpPool.WarningThreshold
       DhcpIpPool.AllocationRanges DhcpIpPool.Tags IpPoolRange.Start IpPoolRange.End_].
  match goal with
  | |- context [if ?c then _ else _] => destruct c eqn:Hcond
  end.
  - finish_update.
    all: do 2 eexists; (split; [reflexivity|]); cbn [state trace];
         (split; [reflexivity|]); rewrite <- app_assoc; split.
    all: try (intros _; eexists; split; reflexivity).
    all: intros (Hn & Hgw & Hlease & Herr & Hwarn & Hranges & Htags); exfalso;
         apply Z.eqb_neq in Herr, Hwarn;
         rewrite Hn, Hgw, Hlease, Herr, Hwarn, Hranges, Htags in Hcond;
         cbn [IpPoolRange.Start IpPoolRange.End_] in Hcond;
         rewrite !strNeq_refl in Hcond; discriminate Hcond.
  - do 2 eexists; (split; [reflexivity|]); cbn [state trace]; (split; [reflexivity|]).
    split; [intros _; split; reflexivity|].
    intros Hn. exfalso. apply Hn.
    repeat (apply orb_false_iff in Hcond; destruct Hcond as [Hcond ?]).
    destruct (DhcpIpPool.AllocationRanges oldPool) as [|[st en] [|]]; try discriminate.
    cbn [IpPoolRange.Start IpPoolRange.End_] in *.
    repeat match goal with
    | H : _ || _ = false |- _ => apply orb_false_iff in H; destruct H
    | H : strNeq _ _ = false |- _ => apply strNeq_false in H
    | H : negb (_ =? _) = false |- _ => apply negb_eqb_false in H
    | H : negb _ = false |- _ => apply negb_false_iff in H
    | H : (_ =? _) = false |- _ => apply Z.eqb_neq in H
    end.
    repeat split; try assumption. congruence.
Qed.

(** ** Identifiers that are dereferenced unchecked *)

(** X11.  The profile task without an edge-cluster identifier, the port task
    without a server or a switch identifier, the server task without a
    profile identifier (once the addresses are derived) and [EnsureDeleted]
    of the pool task with a pool but without a server identifier panic
    before any remote call and leave the store as it was. *)
Theorem Ensure_missing_prerequisite fuel a spec s :
  (EdgeClusterID (AdvancedDHCP (state s)) = None ->
   advancedDHCPProfileTask_Ensure description (S fuel) a spec s = (Panicked, s)) /\
  (ServerID (AdvancedDHCP (state s)) = None \/
   LogicalSwitchID (AdvancedDHCP (state s)) = None ->
   advancedDHCPPortTask_Ensure description (S fuel) a spec s = (Panicked, s)) /\
  (ProfileID (AdvancedDHCP (state s)) = None ->
   forall dhcpServerIP gatewayIP,
     cidrHostAndPrefix (WorkersNetwork spec) 2 = inr dhcpServerIP ->
     cidrHost (WorkersNetwork spec) 1 = inr gatewayIP ->
     advancedDHCPServerTask_Ensure description (S fuel) a spec s = (Panicked, s)) /\
  (ServerID (AdvancedDHCP (state s)) = None ->
   IPPoolID (AdvancedDHCP (state s)) <> None ->
   forall spec', advancedDHCPIPPoolTask_EnsureDeleted a spec' s = (Panicked, s)).
Proof.
  destruct s as [st tr]. simpl_state.
  split; [|split; [|split]].
  - intros H. unfold_task. simpl_state. rewrite H. reflexivity.
  - intros [H|H]; unfold_task; simpl_state; rewrite H;
      [|destruct (ServerID (AdvancedDHCP st))]; reflexivity.
  - intros H ip gw H2 H1. unfold_task. rewrite H2, H1. simpl_state. rewrite H.
    reflexivity.
  - intros H Hp spec'. unfold_task. simpl_state. rewrite H.
    destruct (IPPoolID (AdvancedDHCP st)); [reflexivity | congruence].
Qed.

(** ** Deleting *)

(** X12.  [EnsureDeleted] either makes no remote call and changes nothing, or it
    makes exactly one call, the delete built from the identifiers in the
    state (for the port with [detach] set), and then leaves the state as it
    was or clears the identifier of the task and nothing else. *)
Theorem EnsureDeleted_remote_call (t : owningTask) a spec s r s' :
  EnsureDeleted t a spec s = (r, s') ->
  (trace s' = trace s /\ state s' = state s /\
   (r = Returned (false, None) \/ r = Panicked)) \/
  (exists ev, trace s' = (trace s ++ [ev])%list /\
     deleteCall t (state s) = Some (call ev) /\
     (state s' = state s \/
      (ownID t (state s') = None /\ SegmentRef (state s') = SegmentRef (state s) /\
       forall t', task_eqb (Owning t) t' = false ->
                  taskID t' (state s') = taskID t' (state s)))).
Proof.
  intros Hrun. destruct t; unfold_task.
  all: repeat (simpl_state; run_case Hrun).
  all: injection Hrun as <- <-; cbn [trace state].
  all: try (left; repeat split; auto; fail).
  all: right; eexists; (split; [reflexivity|]); cbn [deleteCall option_map]; simpl_state.
  all: repeat match goal with H : _ = Some _ |- _ => rewrite H end;
       cbn [option_map]; (split; [reflexivity|]).
  all: try (left; reflexivity).
  all: right; cbn [ownID]; simpl_state; repeat split.
  all: intros [|[]|] Ht; try discriminate Ht; reflexivity.
Qed.

(** X13.  A delete that comes back with a nil error counts as done whatever its
    status is, 404 apart: [EnsureDeleted] returns [(true, nil)] and clears
    the identifier of the task. *)
Theorem EnsureDeleted_success (t : owningTask) a spec s r s' ev rest :
  EnsureDeleted t a spec s = (r, s') ->
  trace s' = (trace s ++ ev :: rest)%list ->
  failure ev = None ->
  status ev <> Some StatusNotFound ->
  r = Returned (true, None) /\ ownID t (state s') = None.
Proof.
  intros Hrun Htr Hf Hst. destruct t; unfold_task.
  all: repeat (simpl_state; run_case Hrun).
  all: injection Hrun as <- <-; run_events Htr;
       cbn [call status failure] in *; status_facts; try congruence.
  all: split; reflexivity.
Qed.

End TaskProperties.

(** ** The lookups *)

(** X14.  The edge-cluster lookup makes one list call.  A transport error is
    returned as it is; otherwise the response is not looked at, the first
    cluster of the list whose display name is [spec.EdgeClusterName] gives
    the identifier, and without such a cluster the lookup fails with
    [not found] and leaves the state as it was. *)
Theorem edge_cluster_lookup a spec s objList resp err :
  ListEdgeClusters (NetworkTransportApi (nsxClient a)) (trace s) = (objList, resp, err) ->
  let ev := {| call := CallListEdgeClusters;
               status := option_map StatusCode resp; failure := err |} in
  let results := EdgeClusterListResult.Results objList in
  let run := advancedLookupEdgeClusterTask_Ensure a spec s in
  trace (snd run) = (trace s ++ [ev])%list /\
  (forall e, err = Some e -> fst run = Returned (Some e) /\ state (snd run) = state s) /\
  (err = None ->
   (forall x, In x results -> EdgeCluster.DisplayName x <> EdgeClusterName spec) ->
   fst run = Returned (Some (Errorf ("not found: " ++ EdgeClusterName spec))) /\
   state (snd run) = state s) /\
  (err = None ->
   forall pre obj post,
     results = (pre ++ obj :: post)%list ->
     (forall x, In x pre -> EdgeCluster.DisplayName x <> EdgeClusterName spec) ->
     EdgeCluster.DisplayName obj = EdgeClusterName spec ->
     fst run = Returned None /\
     state (snd run) = withEdgeClusterID (Some (EdgeCluster.Id obj)) (state s)).
Proof.
  intros Hlist ev results run. subst ev results run.
  unfold_task. rewrite Hlist.
  split; [destruct err; [|destruct (findEdgeCluster _ _)]; reflexivity|].
  split; [intros e ->; split; reflexivity|].
  split.
  - intros -> Hnone. rewrite (findEdgeCluster_none _ _ Hnone). split; reflexivity.
  - intros -> pre obj post Hres Hpre Hobj.
    rewrite Hres, (findEdgeCluster_first _ _ _ _ Hpre Hobj). split; reflexivity.
Qed.

(** X15.  The logical-switch lookup makes one list call.  A transport error is
    returned as it is; a nil response with a nil error is a panic; a status
    other than 200 is an error; with status 200 the first switch of the list
    that carries the tag [policyPath] with the path of the segment gives the
    identifier, and without such a switch the lookup fails and leaves the
    state as it was. *)
Theorem logical_switch_lookup a spec s result resp err :
  ListLogicalSwitches (LogicalSwitchingApi (nsxClient a)) (trace s) = (result, resp, err) ->
  let ev := {| call := CallListLogicalSwitches;
               status := option_map StatusCode resp; failure := err |} in
  let results := LogicalSwitchListResult.Results result in
  let wanted := Tag.mk "policyPath" (Path (SegmentRef (state s))) in
  let run := advancedLookupLogicalSwitchTask_Ensure a spec s in
  trace (snd run) = (trace s ++ [ev])%list /\
  (forall e, err = Some e -> fst run = Returned (Some e) /\ state (snd run) = state s) /\
  (err = None -> resp = None -> fst run = Panicked /\ state (snd run) = state s) /\
  (err = None -> forall r, resp = Some r -> StatusCode r <> StatusOK ->
   fst run = Returned (Some (Errorf ("listing failed with unexpected HTTP status code "
                                     ++ formatInt (StatusCode r)))) /\
   state (snd run) = state s) /\
  (err = None -> resp = Some {| StatusCode := StatusOK |} ->
   (forall x, In x results -> ~ In wanted (LogicalSwitch.Tags x)) ->
   fst run = Returned (Some (Errorf ("not found by segment path "
                                     ++ Path (SegmentRef (state s))))) /\
   state (snd run) = state s) /\
  (err = None -> resp = Some {| StatusCode := StatusOK |} ->
   forall pre obj post,
     results = (pre ++ obj :: post)%list ->
     (forall x, In x pre -> ~ In wanted (LogicalSwitch.Tags x)) ->
     In wanted (LogicalSwitch.Tags obj) ->
     fst run = Returned None /\
     state (snd run) = withLogicalSwitchID (Some (LogicalSwitch.Id obj)) (state s)).
Proof.
  intros Hlist ev results wanted run. subst ev results wanted run.
  unfold_task. rewrite Hlist.
  split.
  { destruct err; [reflexivity|]. destruct resp as [r|]; [|reflexivity].
    destruct (negb (StatusCode r =? StatusOK)); [reflexivity|].
    cbn [state]. destruct (findLogicalSwitch _ _); reflexivity. }
  split; [intros e ->; split; reflexivity|].
  split; [intros -> ->; split; reflexivity|].
  split.
  { intros -> r -> Hst. apply Z.eqb_neq in Hst. rewrite Hst. split; reflexivity. }
  split.
  - intros -> -> Hnone. cbn [StatusCode]. rewrite Z.eqb_refl. cbn [negb state].
    rewrite (findLogicalSwitch_none _ _ Hnone). split; reflexivity.
  - intros -> -> pre obj post Hres Hpre Hobj. cbn [StatusCode]. rewrite Z.eqb_refl.
    cbn [negb state].
    rewrite Hres, (findLogicalSwitch_first _ _ _ _ Hpre Hobj). split; reflexivity.
Qed.

(** X16.  [equalCommonTags] is reflexive and transitive.  It is symmetric on a
    first list without duplicates, and not in general: [[x; x]] compares
    equal to [[x; y]] but [[x; y]] does not compare equal to [[x; x]]. *)
Theorem equalCommonTags_preorder :
  (forall a, equalCommonTags a a = true) /\
  (forall a b c, equalCommonTags a b = true -> equalCommonTags b c = true ->
                 equalCommonTags a c = true) /\
  (forall a b, NoDup a -> equalCommonTags a b = true -> equalCommonTags b a = true) /\
  (forall x y : Tag.t, x <> y ->
     equalCommonTags [x; x] [x; y] = true /\ equalCommonTags [x; y] [x; x] = false).
Proof.
  split; [|split; [|split]].
  - intros a. apply equalCommonTags_Permutation. apply Permutation_refl.
  - intros a b c Hab Hbc. apply equalCommonTags_spec in Hab, Hbc.
    apply equalCommonTags_spec. destruct Hab as [L1 I1], Hbc as [L2 I2].
    split; [congruence|]. intros x Hx. apply I2, I1, Hx.
  - intros a b Hnd H. apply equalCommonTags_Permutation, Permutation_sym.
    apply equalCommonTags_NoDup; assumption.
  - intros x y Hxy. split.
    + apply equalCommonTags_spec. split; [reflexivity|].
      intros z [<-|[<-|[]]]; left; reflexivity.
    + destruct (equalCommonTags [x; y] [x; x]) eqn:E; [|reflexivity].
      apply equalCommonTags_spec in E. destruct E as [_ Hincl].
      assert (Hin : In y [x; x]) by (apply Hincl; right; left; reflexivity).
      destruct Hin as [H|[H|[]]]; congruence.
Qed.

(** * Properties of [terraform.go] *)

Lemma find_last {A} (f : A -> bool) (l : list A) (x : A) :
  find f (l ++ [x]) = match find f l with
                      | Some y => Some y
                      | None => if f x then Some x else None
                      end.
Proof.
  induction l as [|y l IH]; cbn; [reflexivity|].
  destruct (f y); [reflexivity | exact IH].
Qed.

Lemma zoneConfigsLoop_lookup region zones acc m :
  zoneConfigsLoop region zones acc = inr m ->
  forall n,
    mapLookup n m =
    match lastZoneNamed n zones with
    | Some z => match zoneConfig region z with
                | inr c => Some c
                | inl _ => None
                end
    | None => mapLookup n acc
    end.
Proof.
  revert acc. induction zones as [|z zones IH]; intros acc H n.
  - cbn in H. injection H as <-. reflexivity.
  - cbn in H. destruct (zoneConfig region z) as [err|c] eqn:Ez; [discriminate|].
    rewrite (IH _ H n). unfold lastZoneNamed. cbn [rev]. rewrite find_last.
    destruct (find _ (rev zones)); [reflexivity|].
    unfold mapInsert. cbn [mapLookup].
    destruct (String.eqb n (ZoneSpec.Name z)); [rewrite Ez|]; reflexivity.
Qed.

Lemma zoneConfigsLoop_succeeds region zones acc :
  (forall z, In z zones ->
     ZoneSpec.Datacenter z <> None \/ RegionSpec.Datacenter region <> None) ->
  exists m, zoneConfigsLoop region zones acc = inr m.
Proof.
  revert acc. induction zones as [|z zones IH]; intros acc H; cbn.
  - eexists; reflexivity.
  - assert (Hz : exists c, zoneConfig region z = inr c).
    { unfold zoneConfig.
      destruct (H z (or_introl eq_refl)) as [Hd|Hd].
      - destruct (ZoneSpec.Datacenter z); [|congruence].
        destruct (ZoneSpec.Datastore z); [|destruct (ZoneSpec.DatastoreCluster z)];
          eexists; reflexivity.
      - destruct (ZoneSpec.Datacenter z);
          [|destruct (RegionSpec.Datacenter region); [|congruence]];
          (destruct (ZoneSpec.Datastore z); [|destruct (ZoneSpec.DatastoreCluster z)]);
          eexists; reflexivity. }
    destruct Hz as [c ->]. apply IH. intros z' Hz'. apply H. right. exact Hz'.
Qed.

Lemma zoneConfigsLoop_first_failure region pre z post acc :
  (forall x, In x pre ->
     ZoneSpec.Datacenter x <> None \/ RegionSpec.Datacenter region <> None) ->
  ZoneSpec.Datacenter z = None ->
  RegionSpec.Datacenter region = None ->
  zoneConfigsLoop region (pre ++ z :: post) acc
  = inl (Errorf ("datacenter not set in zone " ++ ZoneSpec.Name z)).
Proof.
  intros Hpre Hz Hr. revert acc. induction pre as [|x pre IH]; intros acc; cbn.
  - unfold zoneConfig. rewrite Hz, Hr. reflexivity.
  - destruct (Hpre x (or_introl eq_refl)) as [Hd|Hd]; [|congruence].
    unfold zoneConfig at 1.
    destruct (ZoneSpec.Datacenter x); [|congruence].
    destruct (ZoneSpec.Datastore x); [|destruct (ZoneSpec.DatastoreCluster x)];
      apply IH; intros y Hy; apply Hpre; right; exact Hy.
Qed.

Lemma lastZoneNamed_In n zones z :
  lastZoneNamed n zones = Some z -> In z zones /\ ZoneSpec.Name z = n.
Proof.
  unfold lastZoneNamed. intros H. apply find_some in H. destruct H as [Hin Hn].
  split; [apply in_rev; exact Hin | symmetry; apply String.eqb_eq; exact Hn].
Qed.

Section TerraformProperties.

Variable FindRegion : string -> CloudProfileConfig.t -> option RegionSpec.t.
Variable quote : string -> string.
Variable SchemeGroupVersion : string.

(** X17.  [ComputeStatus] fails, in this order, with the error of the Terraform
    state output, with [region not found] when the region is not in the
    cloud profile, and with [datacenter not set] for the first zone that has
    no datacenter where the region has none. *)
Theorem ComputeStatus_errors tf cloudProfileConfig regionName vars :
  (forall e, GetStateOutputVariables tf
               [TerraformOutputKeyNetworkName; TerraformOutputKeyLogicalRouterId;
                TerraformOutputKeyLogicalSwitchId] = (vars, Some e) ->
     ComputeStatus FindRegion quote SchemeGroupVersion tf cloudProfileConfig regionName
     = inl e) /\
  (GetStateOutputVariables tf
     [TerraformOutputKeyNetworkName; TerraformOutputKeyLogicalRouterId;
      TerraformOutputKeyLogicalSwitchId] = (vars, None) ->
   (FindRegion regionName cloudProfileConfig = None ->
    ComputeStatus FindRegion quote SchemeGroupVersion tf cloudProfileConfig regionName
    = inl (Errorf ("region " ++ quote regionName ++ " not found in cloud profile"))) /\
   (forall region pre z post,
      FindRegion regionName cloudProfileConfig = Some region ->
      RegionSpec.Zones region = (pre ++ z :: post)%list ->
      (forall x, In x pre -> ZoneSpec.Datacenter x <> None) ->
      ZoneSpec.Datacenter z = None ->
      RegionSpec.Datacenter region = None ->
      ComputeStatus FindRegion quote SchemeGroupVersion tf cloudProfileConfig regionName
      = inl (Errorf ("datacenter not set in zone " ++ ZoneSpec.Name z)))).
Proof.
  unfold ComputeStatus, extractTerraformState. split.
  - intros e ->. reflexivity.
  - intros ->. split.
    + intros ->. reflexivity.
    + intros region pre z post -> Hz Hpre Hzd Hrd.
      rewrite Hz, (zoneConfigsLoop_first_failure region pre z post []); auto.
Qed.

(** X18.  When the Terraform output is read, the region is found and every zone
    has a datacenter of its own or of the region, [ComputeStatus] succeeds.
    The network fields are the output variables (the empty string for a
    variable that is missing), the region is the name of the region found,
    and a zone name maps to the configuration of the last zone of that
    name. *)
Theorem ComputeStatus_succeeds tf cloudProfileConfig regionName vars region :
  GetStateOutputVariables tf
    [TerraformOutputKeyNetworkName; TerraformOutputKeyLogicalRouterId;
     TerraformOutputKeyLogicalSwitchId] = (vars, None) ->
  FindRegion regionName cloudProfileConfig = Some region ->
  (forall z, In z (RegionSpec.Zones region) ->
     ZoneSpec.Datacenter z <> None \/ RegionSpec.Datacenter region <> None) ->
  exists status,
    ComputeStatus FindRegion quote SchemeGroupVersion tf cloudProfileConfig regionName
    = inr status /\
    InfrastructureStatus.Network status = mapGet vars "network_name" /\
    InfrastructureStatus.LogicalRouterId status = mapGet vars "logical_router_id" /\
    InfrastructureStatus.LogicalSwitchId status = mapGet vars "logical_switch_id" /\
    VsphereConfig.Region (InfrastructureStatus.VsphereConfig status)
      = RegionSpec.Name region /\
    VsphereConfig.Folder (InfrastructureStatus.VsphereConfig status)
      = CloudProfileConfig.Folder cloudProfileConfig /\
    forall n,
      mapLookup n (VsphereConfig.ZoneConfigs (InfrastructureStatus.VsphereConfig status))
      = match lastZoneNamed n (RegionSpec.Zones region) with
        | Some z => match zoneConfig region z with
                    | inr c => Some c
                    | inl _ => None
                    end
        | None => None
        end.
Proof.
  intros Htf Hregion Hdc.
  destruct (zoneConfigsLoop_succeeds region (RegionSpec.Zones region) [] Hdc) as [m Hm].
  unfold ComputeStatus, extractTerraformState. rewrite Htf, Hregion, Hm.
  eexists. split; [reflexivity|]. cbn.
  repeat (split; [reflexivity|]).
  intros n. apply (zoneConfigsLoop_lookup _ _ _ _ Hm).
Qed.

(** X19.  Every entry of the zone configurations of a computed status comes from
    a zone of that name.  A datastore of the zone is taken and the datastore
    cluster left empty; without one, a datastore cluster of the zone is taken
    and the datastore left empty; with neither, both come from the region.
    The datacenter is the one of the zone, or else of the region. *)
Theorem ComputeStatus_datastore_choice tf cloudProfileConfig regionName region status n c :
  FindRegion regionName cloudProfileConfig = Some region ->
  ComputeStatus FindRegion quote SchemeGroupVersion tf cloudProfileConfig regionName
    = inr status ->
  mapLookup n (VsphereConfig.ZoneConfigs (InfrastructureStatus.VsphereConfig status))
    = Some c ->
  exists z, In z (RegionSpec.Zones region) /\ ZoneSpec.Name z = n /\
    (forall d, ZoneSpec.Datastore z = Some d ->
       ZoneConfig.Datastore c = d /\ ZoneConfig.DatastoreCluster c = EmptyString) /\
    (ZoneSpec.Datastore z = None -> forall k, ZoneSpec.DatastoreCluster z = Some k ->
       ZoneConfig.Datastore c = EmptyString /\ ZoneConfig.DatastoreCluster c = k) /\
    (ZoneSpec.Datastore z = None -> ZoneSpec.DatastoreCluster z = None ->
       ZoneConfig.Datastore c = safe (RegionSpec.Datastore region) /\
       ZoneConfig.DatastoreCluster c = safe (RegionSpec.DatastoreCluster region)) /\
    (forall d, ZoneSpec.Datacenter z = Some d -> ZoneConfig.Datacenter c = d) /\
    (ZoneSpec.Datacenter z = None ->
       exists d, RegionSpec.Datacenter region = Some d /\ ZoneConfig.Datacenter c = d).
Proof.
  intros Hregion Hrun Hlook.
  unfold ComputeStatus in Hrun.
  destruct (extractTerraformState tf) as [e|st]; [discriminate|].
  rewrite Hregion in Hrun.
  destruct (zoneConfigsLoop region (RegionSpec.Zones region) []) as [e|m] eqn:Hm;
    [discriminate|].
  injection Hrun as <-. cbn in Hlook.
  rewrite (zoneConfigsLoop_lookup _ _ _ _ Hm n) in Hlook.
  destruct (lastZoneNamed n (RegionSpec.Zones region)) as [z|] eqn:Hz; [|discriminate].
  apply lastZoneNamed_In in Hz. destruct Hz as [Hin Hname].
  exists z. split; [exact Hin|]. split; [exact Hname|].
  unfold zoneConfig in Hlook.
  destruct (ZoneSpec.Datacenter z) as [dz|] eqn:Edz;
    [|destruct (RegionSpec.Datacenter region) as [dr|] eqn:Edr; [|discriminate]];
    (destruct (ZoneSpec.Datastore z) as [ds|] eqn:Eds;
      [|destruct (ZoneSpec.DatastoreCluster z) as [dc|] eqn:Edc]);
    injection Hlook as <-; cbn.
  all: repeat split; intros; try discriminate; try congruence.
  all: try (eexists; split; reflexivity).
Qed.

(** X20.  [ComputeTerraformerChartValues] returns [region not found] for an
    unknown region and [has no zones] for a region without zones, whatever
    the networking is; for a region with zones it panics on a nil
    [networking.Nodes]; otherwise the values carry the nodes network as
    worker network, the name prefix of the cloud profile, and the DNS servers
    of the region if it has any, else those of the cloud profile. *)
Theorem ComputeTerraformerChartValues_cases infra cloudProfileConfig networking :
  let run := ComputeTerraformerChartValues FindRegion quote infra cloudProfileConfig
               networking in
  let found := FindRegion (Infrastructure.Region infra) cloudProfileConfig in
  (found = None ->
   run = Returned (inl (Errorf ("region " ++ quote (Infrastructure.Region infra)
                                ++ " not found in cloud profile")))) /\
  (forall region, found = Some region -> RegionSpec.Zones region = [] ->
   run = Returned (inl (Errorf ("region " ++ quote (Infrastructure.Region infra)
                                ++ " has no zones in cloud profile")))) /\
  (forall region, found = Some region -> RegionSpec.Zones region <> [] ->
   (Networking.Nodes networking = None -> run = Panicked) /\
   (forall nodes, Networking.Nodes networking = Some nodes ->
      exists values, run = Returned (inr values) /\
        valueAt2 "networks" "worker" values = Some (VString nodes) /\
        valueAt2 "nsxt" "namePrefix" values
          = Some (VString (CloudProfileConfig.NamePrefix cloudProfileConfig)) /\
        valueAt2 "nsxt" "dnsServers" values
          = Some (VStrings (match RegionSpec.DNSServers region with
                            | [] => CloudProfileConfig.DNSServers cloudProfileConfig
                            | _ :: _ => RegionSpec.DNSServers region
                            end)))).
Proof.
  cbv zeta. unfold ComputeTerraformerChartValues.
  split; [intros ->; reflexivity|].
  split; [intros region -> ->; reflexivity|].
  intros region -> Hz.
  destruct (RegionSpec.Zones region) as [|z zs] eqn:Ez; [congruence|]. cbn [length Nat.eqb].
  split; [intros ->; reflexivity|].
  intros nodes ->. eexists. split; [reflexivity|].
  destruct (RegionSpec.DNSServers region); repeat split; reflexivity.
Qed.

End TerraformProperties.

(** * The further properties at concrete inputs *)

Lemma Ensure_keeps_other_identifiers_witness :
  let a := {| nsxClient := scriptedClient emptyRemote |} in
  let run := taskEnsure exampleDescription (Owning ServerTask) 2 a exampleSpec
               (start fullState) in
  taskID (Owning ServerTask) (state (snd run)) = Some createdID /\
  SegmentRef (state (snd run)) = SegmentRef fullState /\
  taskID (Owning IPPoolTask) (state (snd run)) = Some "pool-1" /\
  taskID EdgeClusterLookup (state (snd run)) = Some "edge-1".
Proof.
  cbv zeta. split; [vm_compute; reflexivity|].
  destruct (Ensure_keeps_other_identifiers exampleDescription (Owning ServerTask) 2
              {| nsxClient := scriptedClient emptyRemote |} exampleSpec (start fullState)
              _ _ (surjective_pairing _)) as [Hseg Hother].
  split; [exact Hseg|].
  split; [apply (Hother (Owning IPPoolTask)) | apply (Hother EdgeClusterLookup)];
    reflexivity.
Defined.

Lemma Ensure_remote_calls_witness :
  let a := {| nsxClient := scriptedClient (settledRemote [] []) |} in
  let run := Ensure exampleDescription ServerTask 2 a exampleSpec (start fullState) in
  map (fun ev => (isRead (call ev), isUpdate (call ev))) (trace (snd run))
    = [(true, false); (false, true)] /\
  exists evs, trace (snd run) = (trace (start fullState) ++ evs)%list /\
    (evs = [] \/
     (exists e, evs = [e] /\ (isRead (call e) || isCreate (call e)) = true) \/
     (exists e1 e2, evs = [e1; e2] /\ isRead (call e1) = true /\
        (isCreate (call e2) || isUpdate (call e2)) = true)).
Proof.
  cbv zeta. split; [vm_compute; reflexivity|].
  apply (Ensure_remote_calls exampleDescription ServerTask 2
           {| nsxClient := scriptedClient (settledRemote [] []) |} exampleSpec
           (start fullState) _ _ (surjective_pairing _)).
Defined.

Lemma Ensure_success_sets_reference_witness :
  let a := {| nsxClient := scriptedClient emptyRemote |} in
  let s := start (withPortID None fullState) in
  let run := Ensure exampleDescription PortTask 1 a exampleSpec s in
  fst run = Returned None /\ ownID PortTask (state (snd run)) <> None.
Proof.
  cbv zeta. split; [vm_compute; reflexivity|].
  apply (Ensure_success_sets_reference exampleDescription PortTask 1
           {| nsxClient := scriptedClient emptyRemote |} exampleSpec
           (start (withPortID None fullState))).
  vm_compute; reflexivity.
Defined.

Lemma Ensure_create_path_witness :
  let a := {| nsxClient := scriptedClient statusOnlyRemote |} in
  let s := start (withIPPoolID None fullState) in
  let run := Ensure exampleDescription IPPoolTask 1 a exampleSpec s in
  ownID IPPoolTask (state s) = None /\
  fst run <> Returned None /\
  state (snd run) = state s.
Proof.
  cbv zeta. split; [reflexivity|].
  destruct (Ensure_create_path exampleDescription IPPoolTask 1
              {| nsxClient := scriptedClient statusOnlyRemote |} exampleSpec
              (start (withIPPoolID None fullState)) _ _
              (le_n 1) eq_refl (surjective_pairing _)) as (_ & Hkeep & _).
  assert (Hne : fst (Ensure exampleDescription IPPoolTask 1
                       {| nsxClient := scriptedClient statusOnlyRemote |} exampleSpec
                       (start (withIPPoolID None fullState))) <> Returned None)
    by (vm_compute; discriminate).
  split; [exact Hne | exact (Hkeep Hne)].
Defined.

Lemma Ensure_write_failure_witness :
  let a := {| nsxClient := scriptedClient brokenRemote |} in
  let s := start (withProfileID None fullState) in
  let run := Ensure exampleDescription ProfileTask 1 a exampleSpec s in
  let e := TransportError "500 Internal Server Error" in
  fst run = Returned (Some (creatingErr e)) /\ ownID ProfileTask (state (snd run)) = None.
Proof.
  cbv zeta.
  apply (Ensure_write_failure exampleDescription ProfileTask 1
           {| nsxClient := scriptedClient brokenRemote |} exampleSpec
           (start (withProfileID None fullState)) _ _
           [{| call := CallCreateDhcpProfile
                         (DhcpProfile.mk EmptyString "shoot--garden--demo"
                            exampleDescription "edge-1" (createCommonTags exampleSpec));
               status := Some 500;
               failure := Some (TransportError "500 Internal Server Error") |}]
           {| call := CallCreateDhcpProfile
                        (DhcpProfile.mk EmptyString "shoot--garden--demo"
                           exampleDescription "edge-1" (createCommonTags exampleSpec));
              status := Some 500;
              failure := Some (TransportError "500 Internal Server Error") |}
           (TransportError "500 Internal Server Error")
           (surjective_pairing _)).
  - vm_compute; reflexivity.
  - left; reflexivity.
  - reflexivity.
  - reflexivity.
Defined.

Lemma Ensure_identity_stable_witness :
  let a := {| nsxClient := scriptedClient (settledRemote [] []) |} in
  let run := Ensure exampleDescription ServerTask 2 a exampleSpec (start fullState) in
  hd_error (trace (snd run))
    = Some {| call := CallReadDhcpServer "server-1"; status := Some 200;
              failure := None |} /\
  state (snd run) = fullState.
Proof.
  cbv zeta. split; [vm_compute; reflexivity|].
  destruct (Ensure_identity_stable exampleDescription ServerTask 2
              {| nsxClient := scriptedClient (settledRemote [] []) |} exampleSpec
              (start fullState) _ _ "server-1" eq_refl (surjective_pairing _))
    as [H|(ev & rest & Htr & _ & Hst)].
  - exact H.
  - exfalso. vm_compute in Htr. injection Htr as <- _. discriminate Hst.
Defined.

Lemma profile_update_decision_witness :
  let a := {| nsxClient := scriptedClient (settledRemote [] []) |} in
  exists r s',
    advancedDHCPProfileTask_Ensure exampleDescription 1 a exampleSpec (start fullState)
      = (r, s') /\
    r = Returned None /\
    trace s' = [{| call := CallReadDhcpProfile "profile-1"; status := Some 200;
                   failure := None |}].
Proof.
  cbv zeta.
  destruct (profile_update_decision exampleDescription 0
              {| nsxClient := scriptedClient (settledRemote [] []) |} exampleSpec
              (start fullState) "profile-1" "edge-1" exampleProfile
              (Some {| StatusCode := 200 |}) eq_refl eq_refl eq_refl eq_refl)
    as (r & s' & Hrun & _ & Hsame & _).
  exists r, s'. split; [exact Hrun|].
  apply Hsame. repeat split; reflexivity.
Defined.

Lemma server_update_decision_witness :
  let dns := DNSServers exampleSpec in
  let tags := createCommonTags exampleSpec in
  let a := {| nsxClient := scriptedClient (settledRemote dns tags) |} in
  exists r s',
    advancedDHCPServerTask_Ensure exampleDescription 1 a exampleSpec (start fullState)
      = (r, s') /\
    r = Returned None /\
    trace s' = [{| call := CallReadDhcpServer "server-1"; status := Some 200;
                   failure := None |}].
Proof.
  cbv zeta.
  destruct (server_update_decision exampleDescription 0
              {| nsxClient := scriptedClient
                   (settledRemote (DNSServers exampleSpec) (createCommonTags exampleSpec)) |}
              exampleSpec (start fullState) "server-1" "profile-1" "10.0.0.2/24"
              "10.0.0.1"
              (exampleServer (DNSServers exampleSpec) (createCommonTags exampleSpec))
              (Some {| StatusCode := 200 |})
              eq_refl eq_refl eq_refl eq_refl eq_refl eq_refl)
    as (r & s' & Hrun & _ & Hsame & _).
  exists r, s'. split; [exact Hrun|].
  apply Hsame. split; [reflexivity|]. split; [reflexivity|].
  split; [|reflexivity].
  eexists. repeat split; reflexivity.
Defined.

Lemma port_update_decision_witness :
  let a := {| nsxClient := scriptedClient (settledRemote [] []) |} in
  let s := start (withLogicalSwitchID (Some "switch-2") fullState) in
  exists r s' uev,
    advancedDHCPPortTask_Ensure exampleDescription 1 a exampleSpec s = (r, s') /\
    trace s' = [{| call := CallGetLogicalPort "port-1"; status := Some 200;
                   failure := None |}; uev] /\
    call uev = CallUpdateLogicalPort "port-1"
                 (LogicalPort.mk EmptyString "shoot--garden--demo" exampleDescription
                    "switch-2" "UP" (createCommonTags exampleSpec)
                    (Some (LogicalPortAttachment.mk "DHCP_SERVICE" "server-1"))).
Proof.
  cbv zeta.
  destruct (port_update_decision exampleDescription 0
              {| nsxClient := scriptedClient (settledRemote [] []) |} exampleSpec
              (start (withLogicalSwitchID (Some "switch-2") fullState))
              "port-1" "server-1" "switch-2" examplePort
              (Some {| StatusCode := 200 |}) eq_refl eq_refl eq_refl eq_refl eq_refl)
    as (r & s' & Hrun & _ & _ & Hchanged).
  destruct Hchanged as (uev & Htr & Hcall).
  { intros (_ & Hswitch & _). discriminate Hswitch. }
  exists r, s', uev. repeat split; assumption.
Defined.

Lemma pool_update_decision_witness :
  let a := {| nsxClient := scriptedClient (settledRemote [] []) |} in
  exists r s' uev,
    advancedDHCPIPPoolTask_Ensure exampleDescription 1 a exampleSpec (start fullState)
      = (r, s') /\
    trace s' = [{| call := CallReadDhcpIpPool "server-1" "pool-1"; status := Some 200;
                   failure := None |}; uev] /\
    call uev = CallUpdateDhcpIpPool "server-1" "pool-1"
                 (poolWithId EmptyString examplePool).
Proof.
  cbv zeta.
  destruct (pool_update_decision exampleDescription 0
              {| nsxClient := scriptedClient (settledRemote [] []) |} exampleSpec
              (start fullState) "server-1" "pool-1" "10.0.0.1" "10.0.0.10" "10.0.0.254"
              examplePool (Some {| StatusCode := 200 |})
              eq_refl eq_refl eq_refl eq_refl eq_refl eq_refl eq_refl)
    as (r & s' & Hrun & _ & _ & Hchanged).
  destruct Hchanged as (uev & Htr & Hcall).
  { intros (_ & _ & _ & Herr & _). apply Herr. reflexivity. }
  exists r, s', uev. repeat split; assumption.
Defined.

Lemma Ensure_missing_prerequisite_witness :
  let a := {| nsxClient := scriptedClient emptyRemote |} in
  let s := start emptyState in
  let s1 := start (withServerID None fullState) in
  advancedDHCPProfileTask_Ensure exampleDescription 1 a exampleSpec s = (Panicked, s) /\
  advancedDHCPPortTask_Ensure exampleDescription 1 a exampleSpec s = (Panicked, s) /\
  advancedDHCPServerTask_Ensure exampleDescription 1 a exampleSpec s = (Panicked, s) /\
  advancedDHCPIPPoolTask_EnsureDeleted a exampleSpec s1 = (Panicked, s1).
Proof.
  cbv zeta.
  destruct (Ensure_missing_prerequisite exampleDescription 0
              {| nsxClient := scriptedClient emptyRemote |} exampleSpec (start emptyState))
    as (Hprofile & Hport & Hserver & _).
  destruct (Ensure_missing_prerequisite exampleDescription 0
              {| nsxClient := scriptedClient emptyRemote |} exampleSpec
              (start (withServerID None fullState)))
    as (_ & _ & _ & Hpool).
  split; [apply Hprofile; reflexivity|].
  split; [apply Hport; left; reflexivity|].
  split; [apply (Hserver eq_refl "10.0.0.2/24" "10.0.0.1"); reflexivity|].
  apply Hpool; [reflexivity | discriminate].
Defined.

Lemma EnsureDeleted_remote_call_witness :
  let a := {| nsxClient := scriptedClient (settledRemote [] []) |} in
  let run := EnsureDeleted PortTask a exampleSpec (start fullState) in
  map call (trace (snd run)) = [CallDeleteLogicalPort "port-1" true] /\
  state (snd run) = withPortID None fullState.
Proof.
  cbv zeta.
  destruct (EnsureDeleted_remote_call PortTask
              {| nsxClient := scriptedClient (settledRemote [] []) |} exampleSpec
              (start fullState) _ _ (surjective_pairing _))
    as [(Htr & _)|(ev & Htr & Hcall & _)].
  - vm_compute in Htr. discriminate Htr.
  - split; [|vm_compute; reflexivity].
    rewrite Htr. cbn in Hcall. injection Hcall as Hcall.
    cbn. rewrite <- Hcall. reflexivity.
Defined.

Lemma EnsureDeleted_success_witness :
  let remote := {| onRead := ok 200; onCreate := ok 201; onUpdate := ok 200;
                   onDelete := ok 500; onList := ok 200; edgeClusters := [];
                   logicalSwitches := []; profileOnRead := DhcpProfile.zero;
                   serverOnRead := LogicalDhcpServer.zero;
                   portOnRead := LogicalPort.zero; poolOnRead := DhcpIpPool.zero |} in
  let run := EnsureDeleted ServerTask {| nsxClient := scriptedClient remote |}
               exampleSpec (start fullState) in
  trace (snd run) = [{| call := CallDeleteDhcpServer "server-1"; status := Some 500;
                        failure := None |}] /\
  fst run = Returned (true, None) /\ ownID ServerTask (state (snd run)) = None.
Proof.
  cbv zeta. split; [vm_compute; reflexivity|].
  apply (EnsureDeleted_success ServerTask _ exampleSpec (start fullState) _ _
           {| call := CallDeleteDhcpServer "server-1"; status := Some 500;
              failure := None |} [] (surjective_pairing _)).
  - vm_compute; reflexivity.
  - reflexivity.
  - discriminate.
Defined.

Lemma edge_cluster_lookup_witness :
  let clusters := [EdgeCluster.mk "edge-0" "other-cluster";
                   EdgeCluster.mk "edge-1" "edge-cluster";
                   EdgeCluster.mk "edge-2" "edge-cluster"] in
  let remote := {| onRead := ok 200; onCreate := ok 201; onUpdate := ok 200;
                   onDelete := ok 200; onList := ok 500; edgeClusters := clusters;
                   logicalSwitches := []; profileOnRead := DhcpProfile.zero;
                   serverOnRead := LogicalDhcpServer.zero;
                   portOnRead := LogicalPort.zero; poolOnRead := DhcpIpPool.zero |} in
  let run := advancedLookupEdgeClusterTask_Ensure
               {| nsxClient := scriptedClient remote |} exampleSpec (start fullState) in
  fst run = Returned None /\
  state (snd run) = withEdgeClusterID (Some "edge-1") fullState.
Proof.
  cbv zeta.
  match goal with
  | |- fst (advancedLookupEdgeClusterTask_Ensure ?a _ _) = _ /\ _ =>
      destruct (edge_cluster_lookup a exampleSpec (start fullState)
                  (EdgeClusterListResult.mk
                     [EdgeCluster.mk "edge-0" "other-cluster";
                      EdgeCluster.mk "edge-1" "edge-cluster";
                      EdgeCluster.mk "edge-2" "edge-cluster"])
                  (Some {| StatusCode := 500 |}) None eq_refl)
        as (_ & _ & _ & Hfound)
  end.
  apply (Hfound eq_refl [EdgeCluster.mk "edge-0" "other-cluster"]
           (EdgeCluster.mk "edge-1" "edge-cluster")
           [EdgeCluster.mk "edge-2" "edge-cluster"]).
  - reflexivity.
  - intros x [<-|[]]. discriminate.
  - reflexivity.
Defined.

Lemma logical_switch_lookup_witness :
  let path := "/infra/segments/demo" in
  let switches := [LogicalSwitch.mk "switch-0" [Tag.mk "owner" path];
                   LogicalSwitch.mk "switch-1"
                     [Tag.mk "owner" "gardener"; Tag.mk "policyPath" path]] in
  let remote := {| onRead := ok 200; onCreate := ok 201; onUpdate := ok 200;
                   onDelete := ok 200; onList := ok 200; edgeClusters := [];
                   logicalSwitches := switches; profileOnRead := DhcpProfile.zero;
                   serverOnRead := LogicalDhcpServer.zero;
                   portOnRead := LogicalPort.zero; poolOnRead := DhcpIpPool.zero |} in
  let run := advancedLookupLogicalSwitchTask_Ensure
               {| nsxClient := scriptedClient remote |} exampleSpec (start emptyState) in
  fst run = Returned None /\
  state (snd run) = withLogicalSwitchID (Some "switch-1") emptyState.
Proof.
  cbv zeta.
  match goal with
  | |- fst (advancedLookupLogicalSwitchTask_Ensure ?a _ _) = _ /\ _ =>
      destruct (logical_switch_lookup a exampleSpec (start emptyState)
                  (LogicalSwitchListResult.mk
                     [LogicalSwitch.mk "switch-0"
                        [Tag.mk "owner" "/infra/segments/demo"];
                      LogicalSwitch.mk "switch-1"
                        [Tag.mk "owner" "gardener";
                         Tag.mk "policyPath" "/infra/segments/demo"]])
                  (Some {| StatusCode := 200 |}) None eq_refl)
        as (_ & _ & _ & _ & _ & Hfound)
  end.
  apply (Hfound eq_refl eq_refl
           [LogicalSwitch.mk "switch-0" [Tag.mk "owner" "/infra/segments/demo"]]
           (LogicalSwitch.mk "switch-1"
              [Tag.mk "owner" "gardener"; Tag.mk "policyPath" "/infra/segments/demo"])
           []).
  - reflexivity.
  - intros x [<-|[]] [H|[]]. discriminate H.
  - right. left. reflexivity.
Defined.

Lemma equalCommonTags_preorder_witness :
  let x := Tag.mk "owner" "gardener" in
  let y := Tag.mk "cluster" "shoot--garden--demo" in
  equalCommonTags [x; y] [y; x] = true /\
  equalCommonTags [y; x] [x; y] = true /\
  equalCommonTags [x; x] [x; y] = true /\
  equalCommonTags [x; y] [x; x] = false.
Proof.
  cbv zeta.
  destruct equalCommonTags_preorder as (_ & _ & Hsym & Hasym).
  split; [reflexivity|].
  split.
  - apply Hsym; [|reflexivity].
    repeat constructor; cbn; intuition discriminate.
  - apply Hasym. discriminate.
Defined.

Lemma ComputeStatus_errors_witness :
  let zones := [exampleZone "zone-a" None None;
                ZoneSpec.mk "zone-b" None None None None None None] in
  let region := RegionSpec.mk "europe" "nsxt.example.org" false "tz-overlay" "tier0"
                  "edge-cluster" "snat-pool" None None None
                  (ZoneSpec.mk "zone-0" (Some "dc-0") None None None None None :: zones)
                  [] in
  ComputeStatus (fun _ _ => Some region) exampleQuote "v1alpha1" exampleTerraformer
    exampleCloudProfile "europe"
  = inl (Errorf "datacenter not set in zone zone-a") /\
  ComputeStatus (fun _ _ => None) exampleQuote "v1alpha1" exampleTerraformer
    exampleCloudProfile "europe"
  = inl (Errorf "region <europe> not found in cloud profile").
Proof.
  cbv zeta.
  pose (region := RegionSpec.mk "europe" "nsxt.example.org" false "tz-overlay" "tier0"
                    "edge-cluster" "snat-pool" None None None
                    [ZoneSpec.mk "zone-0" (Some "dc-0") None None None None None;
                     exampleZone "zone-a" None None;
                     ZoneSpec.mk "zone-b" None None None None None None] []).
  pose (vars := [("network_name", "net-1"); ("logical_router_id", "router-1")]).
  split.
  - destruct (ComputeStatus_errors (fun _ _ => Some region) exampleQuote "v1alpha1"
                exampleTerraformer exampleCloudProfile "europe" vars)
      as (_ & Hrest).
    destruct (Hrest eq_refl) as (_ & Hzone).
    apply (Hzone region [ZoneSpec.mk "zone-0" (Some "dc-0") None None None None None]
             (exampleZone "zone-a" None None)
             [ZoneSpec.mk "zone-b" None None None None None None]);
      try reflexivity.
    intros x [<-|[]]. discriminate.
  - destruct (ComputeStatus_errors (fun _ _ => None) exampleQuote "v1alpha1"
                exampleTerraformer exampleCloudProfile "europe" vars)
      as (_ & Hrest).
    destruct (Hrest eq_refl) as (Hmissing & _).
    apply Hmissing. reflexivity.
Defined.

Lemma ComputeStatus_succeeds_witness :
  let zones := [exampleZone "zone-a" (Some "ds-a") (Some "dsc-a");
                exampleZone "zone-b" None None;
                exampleZone "zone-a" None (Some "dsc-a2")] in
  let region := exampleRegion zones [] in
  exists status,
    ComputeStatus (fun _ _ => Some region) exampleQuote "v1alpha1" exampleTerraformer
      exampleCloudProfile "ignored" = inr status /\
    InfrastructureStatus.Network status = "net-1" /\
    InfrastructureStatus.LogicalSwitchId status = EmptyString /\
    VsphereConfig.Region (InfrastructureStatus.VsphereConfig status) = "europe" /\
    mapLookup "zone-a"
      (VsphereConfig.ZoneConfigs (InfrastructureStatus.VsphereConfig status))
    = Some (ZoneConfig.mk "dc-1" "cluster-a" EmptyString EmptyString EmptyString
              "dsc-a2") /\
    mapLookup "zone-c"
      (VsphereConfig.ZoneConfigs (InfrastructureStatus.VsphereConfig status)) = None.
Proof.
  cbv zeta.
  destruct (ComputeStatus_succeeds
              (fun _ _ => Some (exampleRegion
                                  [exampleZone "zone-a" (Some "ds-a") (Some "dsc-a");
                                   exampleZone "zone-b" None None;
                                   exampleZone "zone-a" None (Some "dsc-a2")] []))
              exampleQuote "v1alpha1" exampleTerraformer exampleCloudProfile "ignored"
              _ _ eq_refl eq_refl)
    as (status & Hrun & Hnet & _ & Hswitch & Hregion & _ & Hzones).
  { intros z _. right. discriminate. }
  exists status. split; [exact Hrun|].
  split; [exact Hnet|]. split; [exact Hswitch|]. split; [exact Hregion|].
  split; [rewrite Hzones; reflexivity | rewrite Hzones; reflexivity].
Defined.

Lemma ComputeStatus_datastore_choice_witness :
  let zones := [exampleZone "zone-a" (Some "ds-a") (Some "dsc-a")] in
  let region := exampleRegion zones [] in
  let c := ZoneConfig.mk "dc-1" "cluster-a" EmptyString EmptyString "ds-a" EmptyString in
  exists status,
    ComputeStatus (fun _ _ => Some region) exampleQuote "v1alpha1" exampleTerraformer
      exampleCloudProfile "europe" = inr status /\
    mapLookup "zone-a"
      (VsphereConfig.ZoneConfigs (InfrastructureStatus.VsphereConfig status)) = Some c /\
    exists z, In z zones /\ ZoneSpec.Name z = "zone-a" /\
      ZoneConfig.Datastore c = "ds-a" /\ ZoneConfig.DatastoreCluster c = EmptyString.
Proof.
  cbv zeta. eexists. split; [reflexivity|]. split; [reflexivity|].
  destruct (ComputeStatus_datastore_choice
              (fun _ _ => Some (exampleRegion
                                  [exampleZone "zone-a" (Some "ds-a") (Some "dsc-a")] []))
              exampleQuote "v1alpha1" exampleTerraformer exampleCloudProfile "europe"
              _ _ "zone-a"
              (ZoneConfig.mk "dc-1" "cluster-a" EmptyString EmptyString "ds-a" EmptyString)
              eq_refl eq_refl eq_refl)
    as (z & Hin & Hname & _).
  exists z. repeat split; assumption.
Defined.

Lemma ComputeTerraformerChartValues_cases_witness :
  let infra := Infrastructure.mk "shoot--garden--demo" "europe" "ssh-rsa AAAA" in
  let region := exampleRegion [exampleZone "zone-a" None None] [] in
  let find := fun (_ : string) (_ : CloudProfileConfig.t) => Some region in
  ComputeTerraformerChartValues find exampleQuote infra exampleCloudProfile
    (Networking.mk None) = Panicked /\
  exists values,
    ComputeTerraformerChartValues find exampleQuote infra exampleCloudProfile
      (Networking.mk (Some "10.0.0.0/24")) = Returned (inr values) /\
    valueAt2 "nsxt" "dnsServers" values = Some (VStrings ["1.1.1.1"]).
Proof.
  cbv zeta.
  destruct (ComputeTerraformerChartValues_cases
              (fun _ _ => Some (exampleRegion [exampleZone "zone-a" None None] []))
              exampleQuote (Infrastructure.mk "shoot--garden--demo" "europe" "ssh-rsa AAAA")
              exampleCloudProfile (Networking.mk None))
    as (_ & _ & Hnil).
  destruct (ComputeTerraformerChartValues_cases
              (fun _ _ => Some (exampleRegion [exampleZone "zone-a" None None] []))
              exampleQuote (Infrastructure.mk "shoot--garden--demo" "europe" "ssh-rsa AAAA")
              exampleCloudProfile (Networking.mk (Some "10.0.0.0/24")))
    as (_ & _ & Hset).
  split.
  - apply (Hnil _ eq_refl); [discriminate | reflexivity].
  - destruct (Hset _ eq_refl) as [_ Hvalues]; [discriminate|].
    destruct (Hvalues "10.0.0.0/24" eq_refl) as (values & Hrun & _ & _ & Hdns).
    exists values. split; [exact Hrun | exact Hdns].
Defined.
